(** * peastat: the log analysis of [themes/djangobook/static/pea.py]

    A shallow embedding of the line source ([tailLines]), the field
    extraction, the aggregation pass ([getOverview]), the cached DNS
    resolution ([getDNS]) and the per-address view ([ipdetails]) of
    peastat, followed by the properties of the specification stated over
    that embedding.

    Python 2 [str] values are byte strings: they are lists of [ascii].
    An exception that leaves a function is an explicit [Raise] result. *)

From Stdlib Require Import Ascii String QArith Qround Lqa.
From stdpp Require Import gmap strings list fin_maps sorting.

Local Open Scope Z_scope.
Local Open Scope nat_scope.
Local Open Scope list_scope.

(** ** Python values *)

Definition str := list ascii.

(** String literals are read as byte lists. *)
Coercion list_ascii_of_string : string >-> list.

(** The double quote and the newline. *)
Definition dq : ascii := "034"%char.
Definition nl : ascii := "010"%char.

(** The exceptions that the modelled code can raise. *)
Inductive exn :=
| IndexError
| UnboundLocalError
| ValueError
| ZeroDivisionError
| KeyError
| IOError
| DbmError.

Inductive result (A : Type) :=
| Ok (a : A)
| Raise (e : exn).
Arguments Ok {A} a.
Arguments Raise {A} e.

(** Sequencing: the first exception raised leaves the block. *)
#[global] Instance result_ret : MRet result := fun A a => Ok a.
#[global] Instance result_bind : MBind result := fun A B k m =>
  match m with
  | Ok a => k a
  | Raise e => Raise e
  end.

(** [try: body  except: handler] with a bare [except]. *)
Definition try_except {A} (body : result A) (handler : exn -> result A) : result A :=
  match body with
  | Ok a => Ok a
  | Raise e => handler e
  end.

Definition is_ok {A} (m : result A) : bool :=
  match m with Ok _ => true | Raise _ => false end.

#[global] Instance exn_eq_dec : EqDecision exn.
Proof. solve_decision. Defined.

#[global] Instance result_eq_dec {A} `{EqDecision A} : EqDecision (result A).
Proof. solve_decision. Defined.

(** ** Python string operations

    Each one follows the behaviour of the Python 2 built-in of the same
    name on byte strings, for the non-empty separators that pea.py uses. *)

Module Py.

Definition eqb_ascii (a b : ascii) : bool := bool_decide (a = b).

(** [s.startswith(p)] *)
Fixpoint startswith (p s : str) : bool :=
  match p, s with
  | [], _ => true
  | a :: p', b :: s' => eqb_ascii a b && startswith p' s'
  | _ :: _, [] => false
  end.

(** [s.endswith(p)] *)
Definition endswith (p s : str) : bool := startswith (rev p) (rev s).

(** [s.find(sub)]: the lowest index where [sub] occurs, [None] for -1. *)
Fixpoint find (sub s : str) : option nat :=
  if startswith sub s then Some 0
  else match s with
       | [] => None
       | _ :: s' => S <$> find sub s'
       end.

(** [sub in s] *)
Definition contains (sub s : str) : bool :=
  match find sub s with Some _ => true | None => false end.

(** [s.split(sep)]: cut at the occurrences of [sep] found from left to
    right, never overlapping.  Every cut consumes at least one
    character, so [length s] rounds are enough. *)
Fixpoint split_fuel (fuel : nat) (sep s : str) : list str :=
  match fuel with
  | 0 => [s]
  | S fuel' =>
      match find sep s with
      | None => [s]
      | Some i => take i s :: split_fuel fuel' sep (drop (i + length sep) s)
      end
  end.

Definition split (sep s : str) : list str := split_fuel (length s) sep s.

(** [sep.join(l)] *)
Fixpoint join (sep : str) (l : list str) : str :=
  match l with
  | [] => []
  | [x] => x
  | x :: l' => x ++ sep ++ join sep l'
  end.

(** [s.replace(old, new)] *)
Definition replace (old new s : str) : str := join new (split old s).

(** [s.count(sub)] *)
Definition count (sub s : str) : nat := length (split sub s) - 1.

(** [l[i]] for [i >= 0] *)
Definition index {A} (l : list A) (i : nat) : result A :=
  match l !! i with
  | Some x => Ok x
  | None => Raise IndexError
  end.

(** [l[-k]] for [k >= 1] *)
Definition index_back {A} (l : list A) (k : nat) : result A :=
  if decide (1 <= k <= length l) then index l (length l - k)
  else Raise IndexError.

(** [l[a:b]] for [0 <= a], [0 <= b] *)
Definition slice {A} (l : list A) (a b : nat) : list A :=
  take (b - a) (drop a l).

Definition is_upper (c : ascii) : bool :=
  let n := nat_of_ascii c in (65 <=? n) && (n <=? 90).

(** [s.lower()] in the C locale *)
Definition lower (s : str) : str :=
  map (fun c => if is_upper c then ascii_of_nat (nat_of_ascii c + 32) else c) s.

(** The characters of [string.whitespace]. *)
Definition is_space (c : ascii) : bool :=
  let n := nat_of_ascii c in (n =? 32) || ((9 <=? n) && (n <=? 13)).

Fixpoint lstrip (s : str) : str :=
  match s with
  | c :: s' => if is_space c then lstrip s' else s
  | [] => []
  end.

(** [s.strip()] *)
Definition strip (s : str) : str := rev (lstrip (rev (lstrip s))).

End Py.

(** ** Configuration (pea.py, lines 22-31) *)

Definition rooturl : str := "http://www.djangobook.com/"%string.
Definition logfile : str := "/home/jacob/web/log/djangobook.com/www.log"%string.

(** [justdomain] (lines 46-51): the domain of a URL. *)
Definition justdomain (url : str) : result str :=
  try_except
    (a ← Py.index (Py.split "//"%string url) 1;
     Py.index (Py.split "/"%string a) 0)
    (fun e => match e with
              | IndexError => Ok ("bad referrer"%string : str)
              | _ => Raise e
              end).

Definition thisdomain : str :=
  match justdomain rooturl with
  | Ok d => d
  | Raise _ => []
  end.

(** [ispage = re.compile('/$').search]: [$] matches at the end of the
    string and before a newline that ends it. *)
Definition ispage (resource : str) : bool :=
  Py.endswith "/"%string resource || Py.endswith ("/"%string ++ [nl]) resource.

(** [ignorelines = re.compile('24\.124\.4\.220').search] *)
Definition ignorelines (line : str) : bool :=
  Py.contains "24.124.4.220"%string line.

(** ** Library functions used by the aggregation pass

    [urllib.unquote] and [cgi.parse_qs] of the Python 2 standard library,
    with the default [keep_blank_values=0] and [strict_parsing=0]. *)

Module Lib.

Definition hexdigit (c : ascii) : option nat :=
  let n := nat_of_ascii c in
  if (48 <=? n) && (n <=? 57) then Some (n - 48)
  else if (65 <=? n) && (n <=? 70) then Some (n - 55)
  else if (97 <=? n) && (n <=? 102) then Some (n - 87)
  else None.

(** [_hextochr[item[:2]]], [None] for [KeyError] *)
Definition hextochr (item : str) : option ascii :=
  match item with
  | [a; b] =>
      match hexdigit a, hexdigit b with
      | Some x, Some y => Some (ascii_of_nat (16 * x + y))
      | _, _ => None
      end
  | _ => None
  end.

Definition unquote (s : str) : str :=
  match Py.split "%"%string s with
  | [] => s
  | first :: items =>
      fold_left
        (fun acc item =>
           match hextochr (take 2 item) with
           | Some c => acc ++ c :: drop 2 item
           | None => acc ++ "%"%string ++ item
           end)
        items first
  end.

(** [s.split('=', 1)] *)
Definition split_once (sep s : str) : list str :=
  match Py.find sep s with
  | None => [s]
  | Some i => [take i s; drop (i + length sep) s]
  end.

Definition parse_qsl (qs : str) : list (str * str) :=
  let pairs := concat (map (Py.split ";"%string) (Py.split "&"%string qs)) in
  concat
    (map
       (fun name_value =>
          match split_once "="%string name_value with
          | [n; v] =>
              if 0 <? length v
              then [(unquote (Py.replace "+"%string " "%string n),
                     unquote (Py.replace "+"%string " "%string v))]
              else []
          | _ => []
          end)
       pairs).

Definition parse_qs (qs : str) : gmap str (list str) :=
  fold_left
    (fun d '(name, value) =>
       match d !! name with
       | Some l => <[name := l ++ [value]]> d
       | None => <[name := [value]]> d
       end)
    (parse_qsl qs) ∅.

(** [urllib.quote(s)] with the default [safe='/'] *)
Definition always_safe (c : ascii) : bool :=
  let n := nat_of_ascii c in
  ((65 <=? n) && (n <=? 90)) || ((97 <=? n) && (n <=? 122))
  || ((48 <=? n) && (n <=? 57))
  || (n =? 95) || (n =? 46) || (n =? 45) || (n =? 47).

Definition hexchar (n : nat) : ascii :=
  if n <? 10 then ascii_of_nat (48 + n) else ascii_of_nat (55 + n).

Definition quote (s : str) : str :=
  concat
    (map (fun c =>
            if always_safe c then [c]
            else let n := nat_of_ascii c in
                 "%"%char :: hexchar (n / 16) :: [hexchar (n mod 16)])
         s).

End Lib.

(** ** The environment of one request

    The clock and the CGI variables are read from the outside; they are
    the inputs of the model.  [mktime_strptime s] stands for
    [time.mktime(time.strptime(s, '%d/%b/%Y:%H:%M:%S'))] in whole seconds,
    [None] when [strptime] raises [ValueError]. *)
Record Env := {
  cgiloc : str;                        (* os.environ['SCRIPT_NAME'] *)
  now : Z;                             (* time.mktime(time.localtime()) *)
  mktime_strptime : str -> option Z;
  clock_t0 : Q;                        (* time.time() on entry *)
  clock_t1 : Q;                        (* time.time() after the loop *)
  apachetoday : str                    (* time.strftime('%d/%b/%Y') *)
}.

(** [int(x)] on a float: truncation towards zero.  Floats are idealised
    as exact rationals. *)
Definition Qtrunc (x : Q) : Z :=
  if Qle_bool 0 x then Qfloor x else Qceiling x.

(** [round(x)] of Python 2: halves go away from zero. *)
Definition Qround_half_away (x : Q) : Z :=
  if Qle_bool 0 x then Qfloor (x + (1 # 2)) else Qceiling (x - (1 # 2)).

(** [timeSinceApacheDate] (lines 84-90) *)
Definition timeSinceApacheDate (env : Env) (apacheDate : str) : result (Z * Z) :=
  then_ ← match mktime_strptime env apacheDate with
           | Some t => Ok t
           | None => Raise ValueError
           end;
  let minutesSince : Q := (inject_Z (now env - then_) / 60)%Q in
  (* divmod(minutesSince, 60) *)
  let hours : Z := Qfloor (minutesSince / 60) in
  let minutes : Q := (minutesSince - 60 * inject_Z hours)%Q in
  Ok (hours, Qtrunc minutes).

(** ** The aggregation pass *)

(** The local variables that the loop of [getOverview] updates. *)
Record Counts := {
  pagecount : nat;
  hits : gmap str nat;
  lastres : option str;
  referrers : list (str * option str);
  queries : gmap str nat
}.

Definition no_counts : Counts :=
  {| pagecount := 0; hits := ∅; lastres := None; referrers := []; queries := ∅ |}.

(** [d.get(k, 0) + 1] stored back under [k]. *)
Definition incr (k : str) (d : gmap str nat) : gmap str nat :=
  <[k := default 0 (d !! k) + 1]> d.

(** Lines 132-141: the referrer of a page hit. *)
Definition count_referrer (referrer : str) (st : Counts) : result Counts :=
  if (1 <? length referrer) && bool_decide (Py.find thisdomain referrer = None) then
    qs ← Py.index_back (Py.split "?"%string referrer) 1;
    let querydict := Lib.parse_qs qs in
    let q := if 0 <? Py.count ".yahoo."%string referrer
             then querydict !! ("p"%string : str)
             else querydict !! ("q"%string : str) in
    match q with
    | Some (q0 :: _) =>
        let q := Py.lower q0 in
        Ok {| pagecount := pagecount st; hits := hits st; lastres := lastres st;
              referrers := referrers st ++ [(referrer, Some q)];
              queries := incr q (queries st) |}
    | _ =>                      (* [parse_qs] stores no empty list *)
        Ok {| pagecount := pagecount st; hits := hits st; lastres := lastres st;
              referrers := referrers st ++ [(referrer, None)];
              queries := queries st |}
    end
  else Ok st.

(** Lines 125-141: the body of the loop, for one line. *)
Definition count_line (st : Counts) (line : str) : result Counts :=
  resource ← Py.index (Py.split " "%string line) 6;
  if ispage resource && negb (ignorelines line) then
    let st := {| pagecount := pagecount st + 1;
                 hits := incr resource (hits st);
                 lastres := Some resource;
                 referrers := referrers st;
                 queries := queries st |} in
    let line := Py.replace ("\"%string ++ [dq]) "&quot;"%string line in
    referrer ← Py.index_back (Py.split [dq] line) 4;
    count_referrer referrer st
  else Ok st.

(** Lines 124-141: the loop. *)
Fixpoint count_lines (st : Counts) (loglines : list str) : result Counts :=
  match loglines with
  | [] => Ok st
  | line :: rest => st' ← count_line st line; count_lines st' rest
  end.

(** The dictionary that [getOverview] returns. *)
Record Overview := {
  ov_cgiloc : str;
  ov_totalhits : nat;
  ov_timing : Z;
  ov_logfile : str;
  ov_timeoffirsthit : str;
  ov_hits : gmap str nat;
  ov_lastrequest : str;
  ov_pagecount : nat;
  ov_referrers : list (str * option str);
  ov_queries : gmap str nat;
  ov_hourssince : Z;
  ov_minutessince : Z;
  ov_pagehitsperhour : Z
}.

(** [x / y] on floats *)
Definition float_div (x y : Q) : result Q :=
  if Qeq_bool y 0 then Raise ZeroDivisionError else Ok (x / y)%Q.

(** [getOverview] (lines 113-157) over the global [loglines]. *)
Definition getOverview (env : Env) (loglines : list str) : result Overview :=
  line0 ← Py.index loglines 0;
  stamp ← Py.index (Py.split " "%string line0) 3;
  let timeoffirsthit := Py.replace "["%string [] stamp in
  st ← count_lines no_counts loglines;
  let timing := Qtrunc ((clock_t1 env - clock_t0 env) * 1000) in
  lastrequest ← match lastres st with
                 | Some r => Ok r
                 | None => Raise UnboundLocalError
                 end;
  '(hourssince, minutessince) ← timeSinceApacheDate env timeoffirsthit;
  pagehitsperhour ←
    float_div (inject_Z (Z.of_nat (pagecount st)))
              (inject_Z hourssince + inject_Z minutessince / 60);
  Ok {| ov_cgiloc := cgiloc env;
        ov_totalhits := length loglines;
        ov_timing := timing;
        ov_logfile := logfile;
        ov_timeoffirsthit := timeoffirsthit;
        ov_hits := hits st;
        ov_lastrequest := lastrequest;
        ov_pagecount := pagecount st;
        ov_referrers := referrers st;
        ov_queries := queries st;
        ov_hourssince := hourssince;
        ov_minutessince := minutessince;
        ov_pagehitsperhour := Qround_half_away pagehitsperhour |}.

(** ** The line source *)

(** [file.seek(offset, 2)] on a file of [size] bytes: the new position,
    [IOError] when it would lie before the start of the file. *)
Definition seek_end (size : nat) (offset : Z) : result nat :=
  if (Z.of_nat size + offset <? 0)%Z then Raise IOError
  else Ok (Z.to_nat (Z.of_nat size + offset)).

(** The [while 1] loop of [tailLines] (lines 69-77) on a file with the
    given content.  [avgcharsperline] is a float after the first retry and
    [seek] truncates it.  [None]: the loop has not left within [fuel]
    rounds. *)
Fixpoint tailLines_loop (fuel : nat) (content : str) (linesback : nat)
    (avgcharsperline : Q) : option (list str) :=
  match fuel with
  | 0 => None
  | S fuel' =>
      let pos :=
        match seek_end (length content)
                (Qtrunc (-1 * avgcharsperline * inject_Z (Z.of_nat linesback)))
        with
        | Ok p => p
        | Raise _ => 0          (* except IOError: file.seek(0) *)
        end in
      let atstart := pos =? 0 in
      let lines := Py.split [nl] (drop pos content) in
      if (linesback + 1 <? length lines) || atstart then Some lines
      else tailLines_loop fuel' content linesback (avgcharsperline * (13 # 10))
  end.

(** [tailLines] (lines 62-82) *)
Definition tailLines (fuel : nat) (content : str) (linesback : nat)
    : option (list str) :=
  lines ← tailLines_loop fuel content linesback 150;
  let start := if linesback <? length lines
               then length lines - linesback - 1 else 0 in
  Some (Py.slice lines start (length lines - 1)).

(** ** The DNS cache *)

(** The [dbm] file: its entries, and which of its operations succeed. *)
Record Dbm := {
  dbm_opens : bool;
  dbm_reads : bool;
  dbm_writes : bool;
  dbm_closes : bool;
  dbm_data : gmap str str
}.

Definition dbm_open (db : Dbm) : result unit :=
  if dbm_opens db then Ok () else Raise DbmError.

Definition dbm_has_key (db : Dbm) (k : str) : result bool :=
  if dbm_reads db then Ok (bool_decide (is_Some (dbm_data db !! k)))
  else Raise DbmError.

Definition dbm_getitem (db : Dbm) (k : str) : result str :=
  if dbm_reads db then
    match dbm_data db !! k with
    | Some v => Ok v
    | None => Raise KeyError
    end
  else Raise DbmError.

Definition dbm_setitem (db : Dbm) (k v : str) : result Dbm :=
  if dbm_writes db then
    Ok {| dbm_opens := dbm_opens db; dbm_reads := dbm_reads db;
          dbm_writes := dbm_writes db; dbm_closes := dbm_closes db;
          dbm_data := <[k := v]> (dbm_data db) |}
  else Raise DbmError.

Definition dbm_close (db : Dbm) : result unit :=
  if dbm_closes db then Ok () else Raise DbmError.

(** [getDNS] (lines 92-100) *)
Definition getDNS (db : Dbm) (ip : str) : result str :=
  try_except
    (_ ← dbm_open db;
     has ← dbm_has_key db ip;
     addr ← (if has : bool then dbm_getitem db ip else Ok ip);
     _ ← dbm_close db;
     Ok addr)
    (fun _ => Ok ip).

(** ** The per-address view *)

(** One value for each [print] of [ipdetails], holding the values that
    the printed template refers to; the HTML around them is not
    rendered. *)
Inductive Out :=
| OutVisit (ip addr : str)                                   (* line 226 *)
| OutReferrer (referrer : str)                               (* line 239 *)
| OutBrowser (user_agent : str)                              (* line 240 *)
| OutPage (pagecounter : nat) (time resource quotedresource : str) (* line 243 *)
| OutEnd.                                                    (* line 247 *)

(** Lines 218-225: the reverse lookup and the write to the cache.
    [gethostbyaddr ip] is [socket.gethostbyaddr(ip)[0]], [None] when it
    raises. *)
Definition lookup_addr (gethostbyaddr : str -> option str) (ip : str) : str :=
  match gethostbyaddr ip with
  | Some a => a
  | None => "unknown host"%string
  end.

Definition cache_addr (db : Dbm) (ip addr : str) : Dbm * result unit :=
  if bool_decide (addr <> ("unknown host"%string : str)) then
    let '(db', r) :=
      match dbm_open db with
      | Raise e => (db, Raise e)
      | Ok _ =>
          match dbm_setitem db ip addr with
          | Raise e => (db, Raise e)
          | Ok db' => (db', dbm_close db')
          end
      end in
    (db', try_except r (fun _ => Ok ()))          (* except: pass *)
  else (db, Ok ()).

(** Line 237 *)
Definition shorten_agent (user_agent : str) : str :=
  if 50 <? length user_agent
  then Py.strip (Py.slice user_agent 0 50) ++ "..."%string
  else user_agent.

(** Lines 229-246: the body of the loop for one line.  Everything that
    can raise comes before the prints of the line; the result is what the
    line prints and the two counters after it. *)
Definition detail_line (env : Env) (ip : str) (counter pagecounter : nat)
    (line : str) : result (list Out * nat * nat) :=
  address ← Py.index (Py.split " "%string line) 0;
  if bool_decide (address = ip) then
    stamp ← Py.index (Py.split " "%string line) 3;
    let time := Py.replace "["%string [] stamp in
    let time := if Py.startswith (apachetoday env) time
                then Py.replace (apachetoday env ++ ":"%string) "today, "%string time
                else time in
    resource ← Py.index (Py.split " "%string line) 6;
    first ← (if counter =? 1 then
               referrer ← Py.index_back (Py.split [dq] line) 4;
               user_agent ← Py.index_back (Py.split [dq] line) 2;
               let user_agent := shorten_agent user_agent in
               Ok ((if 1 <? length referrer then [OutReferrer referrer] else [])
                     ++ [OutBrowser user_agent])
             else Ok []);
    if ispage resource then
      Ok (first ++ [OutPage pagecounter time resource (Lib.quote resource)],
          counter + 1, pagecounter + 1)
    else Ok (first, counter + 1, pagecounter)
  else Ok ([], counter, pagecounter).

(** Lines 228-246: what the loop prints, and how it ends. *)
Fixpoint detail_lines (env : Env) (ip : str) (counter pagecounter : nat)
    (loglines : list str) : list Out * result unit :=
  match loglines with
  | [] => ([], Ok ())
  | line :: rest =>
      match detail_line env ip counter pagecounter line with
      | Raise e => ([], Raise e)
      | Ok (out, counter', pagecounter') =>
          let '(outs, r) := detail_lines env ip counter' pagecounter' rest in
          (out ++ outs, r)
      end
  end.

(** [ipdetails] (lines 215-247): the cache afterwards, the output, and
    whether the call returned. *)
Definition ipdetails (env : Env) (gethostbyaddr : str -> option str) (db : Dbm)
    (ip : str) (loglines : list str) : Dbm * list Out * result unit :=
  let addr := lookup_addr gethostbyaddr ip in
  let '(db', cached) := cache_addr db ip addr in
  match cached with
  | Raise e => (db', [], Raise e)
  | Ok _ =>
      let '(outs, r) := detail_lines env ip 1 1 loglines in
      match r with
      | Ok _ => (db', OutVisit ip addr :: outs ++ [OutEnd], Ok ())
      | Raise e => (db', OutVisit ip addr :: outs, Raise e)
      end
  end.

(** ** The rest of the configuration (lines 25-30) *)

Definition minresults : nat := 10.
Definition lastlines : nat := 5000.
Definition recentreferrers : nat := 20.
Definition recentsearches : nat := 20.

(** ** Sorting a dictionary by its values *)

(** The order of Python 2 on byte strings. *)
Fixpoint str_le (a b : str) : bool :=
  match a, b with
  | [], _ => true
  | _ :: _, [] => false
  | x :: a', y :: b' =>
      (nat_of_ascii x <? nat_of_ascii y)
      || ((nat_of_ascii x =? nat_of_ascii y) && str_le a' b')
  end.

(** The order of Python on the lists [[value, key]] of [sortByValue]. *)
Definition backitem_le (a b : nat * str) : Prop :=
  a.1 < b.1 \/ (a.1 = b.1 /\ str_le a.2 b.2 = true).

#[global] Instance backitem_le_dec : RelDecision backitem_le.
Proof. intros a b. unfold backitem_le. apply _. Defined.

(** [sortByValue] (lines 55-60).  The keys of a dictionary differ, so the
    lists [[value, key]] differ and are totally ordered: what [sort]
    returns does not depend on how it sorts, nor on the order of
    [d.items()]. *)
Definition sortByValue (d : gmap str nat) : list str :=
  let items := map_to_list d in
  let backitems := map (fun v => (v.2, v.1)) items in
  let backitems := rev (merge_sort backitem_le backitems) in
  map snd backitems.

(** ** Reading the log (lines 102-109) *)

(** What leaves [getLogLines]: the lines, or the
    [Exception('No lines found')] that it raises. *)
Inductive Fetched :=
| Fetched_lines (logLines : list str)
| No_lines_found.

(** [getLogLines].  [file] is the content of the log file, [None] when
    [open] raises; [system_tail] is what [/usr/bin/tail] prints, read with
    [readlines()]. *)
Definition getLogLines (fuel : nat) (file : option str) (system_tail : list str)
    : option Fetched :=
  logLines ← match file with
              | Some content => tailLines fuel content lastlines
              | None => Some system_tail       (* except: or try system's tail *)
              end;
  Some (if length logLines =? 0 then No_lines_found else Fetched_lines logLines).

(** ** The per-resource view (lines 199-213) *)

(** One value for each [print] of [urldetails]. *)
Inductive UrlOut :=
| UrlTitle (url : str)                                       (* line 201 *)
| UrlRow (counter : nat) (time ip cgiloc addr : str)         (* line 210 *)
| UrlEnd.                                                    (* line 213 *)

(** Lines 204-212: the body of the loop for one line. *)
Definition url_line (env : Env) (db : Dbm) (url cgiloc : str) (counter : nat)
    (line : str) : result (list UrlOut * nat) :=
  resource ← Py.index (Py.split " "%string line) 6;
  if bool_decide (resource = url) && negb (ignorelines line) then
    stamp ← Py.index (Py.split " "%string line) 3;
    let time := Py.replace "["%string [] stamp in
    let time := if Py.startswith (apachetoday env) time
                then Py.replace (apachetoday env ++ ":"%string) "today, "%string time
                else time in
    ip ← Py.index (Py.split " "%string line) 0;
    addr ← getDNS db ip;
    Ok ([UrlRow counter time ip cgiloc addr], counter + 1)
  else Ok ([], counter).

Fixpoint url_lines (env : Env) (db : Dbm) (url cgiloc : str) (counter : nat)
    (loglines : list str) : list UrlOut * result unit :=
  match loglines with
  | [] => ([], Ok ())
  | line :: rest =>
      match url_line env db url cgiloc counter line with
      | Raise e => ([], Raise e)
      | Ok (out, counter') =>
          let '(outs, r) := url_lines env db url cgiloc counter' rest in
          (out ++ outs, r)
      end
  end.

(** [urldetails]: the output, and whether the call returned. *)
Definition urldetails (env : Env) (db : Dbm) (url cgiloc : str)
    (loglines : list str) : list UrlOut * result unit :=
  let '(outs, r) := url_lines env db url cgiloc 1 loglines in
  match r with
  | Ok _ => (UrlTitle url :: outs ++ [UrlEnd], Ok ())
  | Raise e => (UrlTitle url :: outs, Raise e)
  end.

(** ** The overview page (lines 159-197) *)

(** One value for each [print] of [displayOverviewHTML]. *)
Inductive Shown :=
| ShownSummary (overview : Overview)                         (* line 160 *)
| ShownPagesTitle (minresults : nat)                         (* line 168 *)
| ShownPage (res cgiloc quoted : str) (score : nat)          (* line 174 *)
| ShownReferrersTitle (recentreferrers : nat)                (* line 178 *)
| ShownReferrer (referrer domain : str)                      (* line 184 *)
| ShownQuery (query : str)                                   (* line 185 *)
| ShownBreak                                                 (* line 186 *)
| ShownEnd                                                   (* lines 187, 197 *)
| ShownSearchesTitle (recentsearches : nat)                  (* line 189 *)
| ShownSearch (quoted_query query : str) (query_score : nat). (* line 195 *)

(** [d[k]] *)
Definition getitem (d : gmap str nat) (k : str) : result nat :=
  match d !! k with
  | Some v => Ok v
  | None => Raise KeyError
  end.

(** Lines 171-176 *)
Fixpoint show_pages (cgiloc : str) (hits : gmap str nat) (keys : list str)
    : list Shown * result unit :=
  match keys with
  | [] => ([], Ok ())
  | res :: rest =>
      match getitem hits res with
      | Raise e => ([], Raise e)
      | Ok score =>
          let '(outs, r) := show_pages cgiloc hits rest in
          ((if minresults <=? score
            then [ShownPage res cgiloc (Lib.quote res) score] else []) ++ outs, r)
      end
  end.

(** Lines 182-186 *)
Fixpoint show_referrers (referrers : list (str * option str))
    : list Shown * result unit :=
  match referrers with
  | [] => ([], Ok ())
  | (referrer, query) :: rest =>
      let referrer := Py.replace "&"%string "&amp;"%string referrer in
      match justdomain referrer with
      | Raise e => ([], Raise e)
      | Ok domain =>
          let '(outs, r) := show_referrers rest in
          (ShownReferrer referrer domain
             :: match query with
                | Some (c :: q) => [ShownQuery (c :: q)]     (* if query: *)
                | _ => []
                end
             ++ ShownBreak :: outs, r)
      end
  end.

(** Lines 192-196 *)
Fixpoint show_searches (queries : gmap str nat) (keys : list str)
    : list Shown * result unit :=
  match keys with
  | [] => ([], Ok ())
  | query :: rest =>
      match getitem queries query with
      | Raise e => ([], Raise e)
      | Ok query_score =>
          let quoted_query := Py.replace [dq] "%22"%string query in
          let '(outs, r) := show_searches queries rest in
          (ShownSearch quoted_query query query_score :: outs, r)
      end
  end.

(** [displayOverviewHTML].  [referrers.reverse()] reverses the list that
    the overview holds: the overview after the call is part of the
    result, with the output and whether the call returned. *)
Definition displayOverviewHTML (overview : Overview)
    : Overview * list Shown * result unit :=
  let out := [ShownSummary overview; ShownPagesTitle minresults] in
  let hits := ov_hits overview in
  let '(pages, r) := show_pages (ov_cgiloc overview) hits (sortByValue hits) in
  let out := out ++ pages in
  match r with
  | Raise e => (overview, out, Raise e)
  | Ok _ =>
      let out := out ++ [ShownReferrersTitle recentreferrers] in
      let referrers := rev (ov_referrers overview) in
      let overview :=
        {| ov_cgiloc := ov_cgiloc overview; ov_totalhits := ov_totalhits overview;
           ov_timing := ov_timing overview; ov_logfile := ov_logfile overview;
           ov_timeoffirsthit := ov_timeoffirsthit overview;
           ov_hits := ov_hits overview; ov_lastrequest := ov_lastrequest overview;
           ov_pagecount := ov_pagecount overview;
           ov_referrers := referrers;
           ov_queries := ov_queries overview;
           ov_hourssince := ov_hourssince overview;
           ov_minutessince := ov_minutessince overview;
           ov_pagehitsperhour := ov_pagehitsperhour overview |} in
      let '(shown, r) := show_referrers (Py.slice referrers 0 recentreferrers) in
      let out := out ++ shown in
      match r with
      | Raise e => (overview, out, Raise e)
      | Ok _ =>
          let out := out ++ [ShownEnd; ShownSearchesTitle recentsearches] in
          let queries := ov_queries overview in
          let '(searches, r) :=
            show_searches queries (Py.slice (sortByValue queries) 0 recentsearches) in
          let out := out ++ searches in
          match r with
          | Raise e => (overview, out, Raise e)
          | Ok _ => (overview, out ++ [ShownEnd], Ok ())
          end
      end
  end.

(** ** A concrete request, for the examples

    A clock in UTC that reads the timestamps Apache writes
    ([dd/Mon/yyyy:hh:mm:ss]), and lines in the combined log format. *)

Module Sample.

Local Open Scope Z_scope.

Definition digit (c : ascii) : option Z :=
  let n := Z.of_nat (nat_of_ascii c) in
  if (48 <=? n) && (n <=? 57) then Some (n - 48) else None.

Fixpoint number (acc : Z) (s : str) : option Z :=
  match s with
  | [] => Some acc
  | c :: s' => d ← digit c; number (10 * acc + d) s'
  end.

Definition months : list (str * Z) :=
  [("Jan"%string : str, 1); ("Feb"%string : str, 2); ("Mar"%string : str, 3);
   ("Apr"%string : str, 4); ("May"%string : str, 5); ("Jun"%string : str, 6);
   ("Jul"%string : str, 7); ("Aug"%string : str, 8); ("Sep"%string : str, 9);
   ("Oct"%string : str, 10); ("Nov"%string : str, 11); ("Dec"%string : str, 12)].

Definition month (s : str) : option Z :=
  snd <$> List.find (fun p => bool_decide (fst p = s)) months.

(** Days from 1970-01-01 to the given date of the Gregorian calendar. *)
Definition days_from_civil (y m d : Z) : Z :=
  let y := if m <=? 2 then y - 1 else y in
  let era := y / 400 in
  let yoe := y mod 400 in
  let doy := (153 * (if 2 <? m then m - 3 else m + 9) + 2) / 5 + d - 1 in
  let doe := yoe * 365 + yoe / 4 - yoe / 100 + doy in
  era * 146097 + doe - 719468.

Definition utc_seconds (s : str) : option Z :=
  match Py.split "/"%string s with
  | [dd; mon; rest] =>
      match Py.split ":"%string rest with
      | [yyyy; hh; mi; ss] =>
          if bool_decide (length dd = 2%nat /\ length yyyy = 4%nat /\ length hh = 2%nat
                          /\ length mi = 2%nat /\ length ss = 2%nat) then
            d ← number 0 dd; m ← month mon; y ← number 0 yyyy;
            h ← number 0 hh; mn ← number 0 mi; sc ← number 0 ss;
            if (1 <=? d) && (d <=? 31) && (h <? 24) && (mn <? 60) && (sc <? 62)
            then Some (days_from_civil y m d * 86400 + h * 3600 + mn * 60 + sc)
            else None
          else None
      | _ => None
      end
  | _ => None
  end.

(** The request is served at the given UTC timestamp plus [delay]
    seconds. *)
Definition env_at (stamp : str) (delay : Z) : Env :=
  {| cgiloc := "/cgi-bin/pea.py"%string;
     now := default 0 (utc_seconds stamp) + delay;
     mktime_strptime := utc_seconds;
     clock_t0 := 0;
     clock_t1 := 3 # 1000;
     apachetoday := take 11 stamp |}.

(** A line of the combined log format. *)
Definition logline (ip stamp resource referrer agent : str) : str :=
  ip ++ " - - ["%string ++ stamp ++ " +0000] "%string
     ++ [dq] ++ "GET "%string ++ resource ++ " HTTP/1.1"%string ++ [dq]
     ++ " 200 1234 "%string
     ++ [dq] ++ referrer ++ [dq] ++ " "%string ++ [dq] ++ agent ++ [dq].

Definition noon : str := "04/Nov/2026:12:00:00"%string.

Definition docs_from_search : str :=
  logline "203.0.113.5"%string noon "/docs/"%string
          "http://www.google.com/search?q=Django+Book"%string "Mozilla/5.0"%string.

Definition docs_from_site : str :=
  logline "203.0.113.6"%string "04/Nov/2026:12:00:07"%string "/docs/"%string
          "http://www.djangobook.com/en/2.0/"%string "Mozilla/5.0"%string.

Definition image : str :=
  logline "203.0.113.5"%string "04/Nov/2026:12:00:09"%string "/logo.png"%string
          "-"%string "Mozilla/5.0"%string.

(** Fewer than seven tokens. *)
Definition short_line : str := "203.0.113.7 - - [04/Nov/2026:12:00:08"%string.

Definition window : list str := [docs_from_search; docs_from_site; image].

(** A first visit without referrer, from a browser with a name of 60
    characters. *)
Definition long_agent : str :=
  "Mozilla/5.0 (X11; Linux x86_64) AppleWebKit/537.36 Chrome/99"%string.

Definition direct_visit : str :=
  logline "203.0.113.9"%string noon "/docs/"%string "-"%string long_agent.

Definition cache : Dbm :=
  {| dbm_opens := true; dbm_reads := true; dbm_writes := true;
     dbm_closes := true; dbm_data := ∅ |}.

(** The overview that a call returned. *)
Definition returned (r : result Overview) : Overview :=
  match r with
  | Ok ov => ov
  | Raise _ =>
      {| ov_cgiloc := []; ov_totalhits := 0; ov_timing := 0; ov_logfile := [];
         ov_timeoffirsthit := []; ov_hits := ∅; ov_lastrequest := [];
         ov_pagecount := 0; ov_referrers := []; ov_queries := ∅;
         ov_hourssince := 0; ov_minutessince := 0; ov_pagehitsperhour := 0 |}
  end.

End Sample.

(** ** Vocabulary of the statements *)

(** The characters of [s] before the first [c] (all of [s] when there is
    none). *)
Fixpoint upto (c : ascii) (s : str) : str :=
  match s with
  | [] => []
  | a :: s' => if Py.eqb_ascii a c then [] else a :: upto c s'
  end.

(** [x] occurs in [s] as a contiguous block. *)
Definition infix (x s : str) : Prop := exists pre post, s = pre ++ x ++ post.

(** The fields that the loop of [getOverview] reads from a line. *)
Definition resource_of (line : str) : result str :=
  Py.index (Py.split " "%string line) 6.

Definition referrer_of (line : str) : result str :=
  Py.index_back
    (Py.split [dq] (Py.replace ("\"%string ++ [dq]) "&quot;"%string line)) 4.

(** The state after the three assignments of lines 127-129. *)
Definition counted (resource : str) (st : Counts) : Counts :=
  {| pagecount := pagecount st + 1;
     hits := incr resource (hits st);
     lastres := Some resource;
     referrers := referrers st;
     queries := queries st |}.

(** A page hit: the resource matches [ispage] and the line does not match
    [ignorelines]. *)
Definition page_hit (line : str) : bool :=
  match resource_of line with
  | Ok resource => ispage resource && negb (ignorelines line)
  | Raise _ => false
  end.

(** A line that the loop of [getOverview] can process: it has the seventh
    token, and if it is a page hit it splits at double quotes into the
    four pieces that the index -4 needs. *)
Definition well_formed (line : str) : bool :=
  (7 <=? length (Py.split " "%string line))
  && (negb (page_hit line)
      || (4 <=? length (Py.split [dq]
                          (Py.replace ("\"%string ++ [dq]) "&quot;"%string line)))).

(** The time since the first line of the window, as [getOverview] reads
    it (lines 122 and 152). *)
Definition first_hit_elapsed (env : Env) (loglines : list str) : result (Z * Z) :=
  line0 ← Py.index loglines 0;
  stamp ← Py.index (Py.split " "%string line0) 3;
  timeSinceApacheDate env (Py.replace "["%string [] stamp).

(** The resources of the page hits, in the order of the lines. *)
Definition page_resources (loglines : list str) : list str :=
  omap (fun line =>
          match resource_of line with
          | Ok resource =>
              if ispage resource && negb (ignorelines line)
              then Some resource else None
          | Raise _ => None
          end)
       loglines.

(** The lines of one client address, and those of them that
    [ipdetails] numbers as pages (it does not consult [ignorelines]). *)
Definition address_of (line : str) : result str :=
  Py.index (Py.split " "%string line) 0.

Definition hits_from (ip : str) (loglines : list str) : list str :=
  List.filter (fun line => bool_decide (address_of line = Ok ip)) loglines.

Definition is_page_line (line : str) : bool :=
  match resource_of line with
  | Ok resource => ispage resource
  | Raise _ => false
  end.

(** What a run of [ipdetails] printed: the browsers, the referrers and
    the page numbers, in the order of the output. *)
Definition browsers (out : list Out) : list str :=
  omap (fun o => match o with OutBrowser ua => Some ua | _ => None end) out.

Definition shown_referrers (out : list Out) : list str :=
  omap (fun o => match o with OutReferrer r => Some r | _ => None end) out.

Definition page_numbers (out : list Out) : list nat :=
  omap (fun o => match o with OutPage n _ _ _ => Some n | _ => None end) out.

(** The complete (newline-terminated) lines of a file, without their
    newlines. *)
Fixpoint file_lines (content : str) : list str :=
  match content with
  | [] => []
  | c :: rest =>
      if Py.eqb_ascii c nl then [] :: file_lines rest
      else match file_lines rest with
           | [] => []
           | line :: lines => (c :: line) :: lines
           end
  end.

(** The last [n] elements of a list (all of it when it has fewer). *)
Definition lastn {A} (n : nat) (l : list A) : list A := drop (length l - n) l.

(** A referrer that the pass lists: it has more than one character and
    does not contain the domain of the site. *)
Definition foreign (referrer : str) : bool :=
  (1 <? length referrer) && bool_decide (Py.find thisdomain referrer = None).

(** The referrers that a pass over the lines lists, in their order. *)
Definition listed (loglines : list str) : list str :=
  omap (fun line =>
          if page_hit line then
            match referrer_of line with
            | Ok referrer => if foreign referrer then Some referrer else None
            | Raise _ => None
            end
          else None)
       loglines.

(** How many entries of a referrer list carry the query [q]. *)
Definition asked (q : str) (referrers : list (str * option str)) : nat :=
  length (List.filter (fun rq => bool_decide (rq.2 = Some q)) referrers).

(** The sum of the counts of a dictionary. *)
Definition total (d : gmap str nat) : nat := sum_list_with snd (map_to_list d).

(** The content of a file into which [lines] were written, each followed
    by a newline, and then the unfinished text [partial]. *)
Definition written (lines : list str) (partial : str) : str :=
  concat (map (fun line => line ++ [nl]) lines) ++ partial.

(** The count of a key, 0 when the dictionary does not hold it. *)
Definition value (d : gmap str nat) (k : str) : nat := default 0 (d !! k).

(** [k1] comes before [k2] in the order of [sortByValue]: it has the
    greater count, or the same count and is not the smaller string. *)
Definition ranked_before (d : gmap str nat) (k1 k2 : str) : Prop :=
  value d k2 < value d k1 \/ (value d k2 = value d k1 /\ str_le k2 k1 = true).

(** What [displayOverviewHTML] printed: the popular pages, the referrers
    and the search terms, in the order of the output. *)
Definition shown_pages (out : list Shown) : list str :=
  omap (fun o => match o with ShownPage res _ _ _ => Some res | _ => None end) out.

Definition shown_urls (out : list Shown) : list str :=
  omap (fun o => match o with ShownReferrer r _ => Some r | _ => None end) out.

Definition shown_searches (out : list Shown) : list str :=
  omap (fun o => match o with ShownSearch _ q _ => Some q | _ => None end) out.

(** The overview with its referrer list reversed. *)
Definition reversed (overview : Overview) : Overview :=
  {| ov_cgiloc := ov_cgiloc overview; ov_totalhits := ov_totalhits overview;
     ov_timing := ov_timing overview; ov_logfile := ov_logfile overview;
     ov_timeoffirsthit := ov_timeoffirsthit overview;
     ov_hits := ov_hits overview; ov_lastrequest := ov_lastrequest overview;
     ov_pagecount := ov_pagecount overview;
     ov_referrers := rev (ov_referrers overview);
     ov_queries := ov_queries overview;
     ov_hourssince := ov_hourssince overview;
     ov_minutessince := ov_minutessince overview;
     ov_pagehitsperhour := ov_pagehitsperhour overview |}.

(** A referrer as the overview page prints it. *)
Definition escaped (referrer : str) : str :=
  Py.replace "&"%string "&amp;"%string referrer.

(** The lines that [urldetails] lists for a resource. *)
Definition hits_for (url : str) (loglines : list str) : list str :=
  List.filter
    (fun line => bool_decide (resource_of line = Ok url) && negb (ignorelines line))
    loglines.

(** The rows that [urldetails] printed: number, address and host name. *)
Definition url_rows (out : list UrlOut) : list (nat * str * str) :=
  omap (fun o => match o with
                 | UrlRow counter _ ip _ addr => Some (counter, ip, addr)
                 | _ => None
                 end)
       out.

(** * Properties *)

(** ** Results *)

Lemma bind_Ok {A B} (m : result A) (k : A -> result B) (b : B) :
  m ≫= k = Ok b -> exists a, m = Ok a /\ k a = Ok b.
Proof. destruct m as [a|e]; simpl; [eauto | discriminate]. Qed.

Lemma bind_Raise {A B} (m : result A) (k : A -> result B) (e : exn) :
  m ≫= k = Raise e -> m = Raise e \/ exists a, m = Ok a /\ k a = Raise e.
Proof. destruct m as [a|e']; simpl; [eauto | intros [= ->]; auto]. Qed.

(** ** Strings *)

Section StringFacts.

Implicit Types (s t sub sep p x : str) (c : ascii).

Lemma startswith_prefix p s : Py.startswith p s = true <-> exists t, s = p ++ t.
Proof.
  revert s. induction p as [|a p IH]; intros s; simpl.
  - split; eauto.
  - destruct s as [|b s]; simpl.
    + split; [discriminate | intros [t [=]]].
    + unfold Py.eqb_ascii. rewrite andb_true_iff, bool_decide_eq_true, IH.
      split.
      * intros [-> [t ->]]. eauto.
      * intros [t [= -> ->]]. eauto.
Qed.

Lemma startswith_length p s : Py.startswith p s = true -> length p <= length s.
Proof.
  intros [t ->]%startswith_prefix. rewrite length_app. lia.
Qed.

(** [find] returns an index where [sub] occurs... *)
Lemma find_Some sub s i :
  Py.find sub s = Some i -> s = take i s ++ sub ++ drop (i + length sub) s.
Proof.
  revert i. induction s as [|a s IH]; intros i; simpl.
  - destruct (Py.startswith sub []) eqn:E; [|discriminate].
    intros [= <-]. apply startswith_prefix in E as [t E].
    symmetry in E. apply app_eq_nil in E as [-> ->]. reflexivity.
  - destruct (Py.startswith sub (a :: s)) eqn:E.
    + intros [= <-]. apply startswith_prefix in E as [t E].
      simpl. rewrite E at 1. f_equal. rewrite E, drop_app_length. reflexivity.
    + destruct (Py.find sub s) as [j|] eqn:F; [|discriminate].
      simpl. intros [= <-]. simpl. f_equal. apply IH. reflexivity.
Qed.

Lemma find_Some_length sub s i :
  Py.find sub s = Some i -> i + length sub <= length s.
Proof.
  revert i. induction s as [|a s IH]; intros i; simpl.
  - destruct (Py.startswith sub []) eqn:E; [|discriminate].
    intros [= <-]. apply startswith_length in E. simpl in *. lia.
  - destruct (Py.startswith sub (a :: s)) eqn:E.
    + intros [= <-]. apply startswith_length in E. simpl in *. lia.
    + destruct (Py.find sub s) as [j|] eqn:F; [|discriminate].
      simpl. intros [= <-]. specialize (IH j eq_refl). lia.
Qed.

(** ... and no occurrence starts before it. *)
Lemma find_Some_first sub s i j :
  Py.find sub s = Some i -> j < i -> Py.startswith sub (drop j s) = false.
Proof.
  revert i j. induction s as [|a s IH]; intros i j; simpl.
  - destruct (Py.startswith sub []); [intros [= <-]; lia | discriminate].
  - destruct (Py.startswith sub (a :: s)) eqn:E; [intros [= <-]; lia|].
    destruct (Py.find sub s) as [k|] eqn:F; [|discriminate].
    simpl. intros [= <-] Hj. destruct j as [|j]; simpl; [exact E|].
    eapply IH; [reflexivity | lia].
Qed.

Lemma find_None sub s : Py.find sub s = None -> ~ infix sub s.
Proof.
  induction s as [|a s IH]; simpl.
  - destruct (Py.startswith sub []) eqn:E; [discriminate|].
    intros _ (pre & post & H). symmetry in H.
    apply app_eq_nil in H as [-> H]. apply app_eq_nil in H as [-> ->].
    discriminate.
  - destruct (Py.startswith sub (a :: s)) eqn:E; [discriminate|].
    destruct (Py.find sub s) eqn:F; [discriminate|]. intros _.
    intros (pre & post & H). destruct pre as [|b pre]; simpl in H.
    + assert (Py.startswith sub (a :: s) = true) as E'
        by (apply startswith_prefix; eauto).
      congruence.
    + injection H as -> ->. apply IH; [reflexivity|]. exists pre, post. reflexivity.
Qed.

Lemma find_infix sub s : infix sub s -> exists i, Py.find sub s = Some i.
Proof.
  intros H. destruct (Py.find sub s) eqn:F; [eauto|].
  exfalso. eapply find_None; eauto.
Qed.

Lemma infix_trans x t s : infix x t -> infix t s -> infix x s.
Proof.
  intros (a & b & ->) (a' & b' & ->).
  exists (a' ++ a), (b ++ b'). rewrite <- !app_assoc. reflexivity.
Qed.

Lemma infix_refl s : infix s s.
Proof. exists [], []. rewrite app_nil_r. reflexivity. Qed.

Lemma contains_infix sub s : Py.contains sub s = true <-> infix sub s.
Proof.
  unfold Py.contains. split.
  - destruct (Py.find sub s) as [i|] eqn:F; [|discriminate]. intros _.
    exists (take i s), (drop (i + length sub) s). apply find_Some, F.
  - intros [i ->]%find_infix. reflexivity.
Qed.

(** *** [split] *)

Lemma split_fuel_enough sep s fuel1 fuel2 :
  sep <> [] -> length s <= fuel1 -> length s <= fuel2 ->
  Py.split_fuel fuel1 sep s = Py.split_fuel fuel2 sep s.
Proof.
  intros Hsep. revert fuel2 s.
  induction fuel1 as [|f1 IH]; intros [|f2] s H1 H2; simpl; try reflexivity.
  - destruct (Py.find sep s) as [i|] eqn:F; [|reflexivity].
    apply find_Some_length in F. destruct sep; [done|]. simpl in F. lia.
  - destruct (Py.find sep s) as [i|] eqn:F; [|reflexivity].
    apply find_Some_length in F. destruct sep; [done|]. simpl in F. lia.
  - destruct (Py.find sep s) as [i|] eqn:F; [|reflexivity].
    apply find_Some_length in F. f_equal.
    assert (length sep <> 0) by (destruct sep; [done | simpl; lia]).
    apply IH; rewrite length_drop; lia.
Qed.

(** The equation that defines [split]. *)
Lemma split_eq sep s :
  sep <> [] ->
  Py.split sep s =
    match Py.find sep s with
    | None => [s]
    | Some i => take i s :: Py.split sep (drop (i + length sep) s)
    end.
Proof.
  intros Hsep. unfold Py.split.
  assert (length sep <> 0) by (destruct sep; [done | simpl; lia]).
  destruct (length s) as [|n] eqn:L; simpl.
  - destruct (Py.find sep s) as [i|] eqn:F; [|reflexivity].
    apply find_Some_length in F. lia.
  - destruct (Py.find sep s) as [i|] eqn:F; [|reflexivity].
    f_equal. apply find_Some_length in F.
    apply split_fuel_enough; [done| |done].
    rewrite length_drop. lia.
Qed.

Lemma split_length sep s : 1 <= length (Py.split sep s).
Proof.
  unfold Py.split. destruct (length s); simpl; [lia|].
  destruct (Py.find sep s); simpl; lia.
Qed.

Lemma split_pieces_infix sep s :
  sep <> [] -> Forall (fun x => infix x s) (Py.split sep s).
Proof.
  intros Hsep. remember (length s) as n eqn:Hn.
  revert s Hn. induction n as [n IH] using lt_wf_ind. intros s ->.
  rewrite split_eq by done.
  destruct (Py.find sep s) as [i|] eqn:F.
  - pose proof (find_Some _ _ _ F) as E.
    pose proof (find_Some_length _ _ _ F) as L.
    assert (length sep <> 0) by (destruct sep; [done | simpl; lia]).
    constructor.
    + exists [], (sep ++ drop (i + length sep) s). exact E.
    + eapply Forall_impl.
      * eapply (IH (length (drop (i + length sep) s))); [|reflexivity].
        rewrite length_drop. lia.
      * intros x Hx. eapply infix_trans; [exact Hx|].
        exists (take i s ++ sep), []. rewrite app_nil_r, <- app_assoc. exact E.
  - constructor; [apply infix_refl | constructor].
Qed.

End StringFacts.

(** ** [justdomain] *)

Lemma upto_prefix c s : exists t, s = upto c s ++ t.
Proof.
  induction s as [|a s [t IH]]; simpl; [by exists []|].
  destruct (Py.eqb_ascii a c); [by eexists|].
  exists t. simpl. by rewrite <- IH.
Qed.

Lemma upto_app c a b : upto c (a ++ c :: b) = upto c a.
Proof.
  induction a as [|x a IH]; simpl.
  - unfold Py.eqb_ascii. by rewrite bool_decide_eq_true_2.
  - destruct (Py.eqb_ascii x c); [done | by rewrite IH].
Qed.

Lemma find_char_upto c s :
  match Py.find [c] s with
  | Some i => take i s = upto c s
  | None => upto c s = s
  end.
Proof.
  induction s as [|a s IH]; simpl; [done|].
  unfold Py.eqb_ascii. rewrite andb_true_r.
  rewrite (bool_decide_ext (c = a) (a = c)) by (split; congruence).
  destruct (bool_decide (a = c)); [done|].
  destruct (Py.find [c] s) as [i|]; simpl; by rewrite IH.
Qed.

Lemma split_char_first c s : exists rest, Py.split [c] s = upto c s :: rest.
Proof.
  rewrite split_eq by done. pose proof (find_char_upto c s) as H.
  destruct (Py.find [c] s) as [i|]; rewrite H; eauto.
Qed.

(** The value of [justdomain], in closed form. *)
Lemma justdomain_value (url : str) :
  justdomain url =
    Ok (match Py.find "//"%string url with
        | Some i => upto "/" (drop (i + 2) url)
        | None => "bad referrer"%string : str
        end).
Proof.
  unfold justdomain. rewrite (split_eq "//"%string) by done.
  change (list_ascii_of_string "/") with ["/"%char].
  destruct (Py.find "//"%string url) as [i|] eqn:F; [|reflexivity].
  change (length (list_ascii_of_string "//")) with 2.
  generalize (drop (i + 2) url). intros rest.
  rewrite (split_eq "//"%string) by done.
  destruct (Py.find "//"%string rest) as [j|] eqn:G.
  - cbn [Py.index lookup list_lookup mbind result_bind].
    destruct (split_char_first "/" (take j rest)) as [tl ->].
    cbn. f_equal.
    apply find_Some in G. symmetry.
    etransitivity;
      [|apply (upto_app "/" (take j rest) ("/"%char :: drop (j + 2) rest))].
    f_equal. exact G.
  - cbn [Py.index lookup list_lookup mbind result_bind].
    destruct (split_char_first "/" rest) as [tl ->]. reflexivity.
Qed.


(** Where the first occurrence is: at the end of [pre] when [pre] and the
    character after it hold no occurrence. *)
Lemma find_first_occurrence sub pre rest :
  sub <> [] ->
  ~ infix sub (pre ++ take (length sub - 1) (sub ++ rest)) ->
  Py.find sub (pre ++ sub ++ rest) = Some (length pre).
Proof.
  intros Hsub Hfirst.
  destruct (find_infix sub (pre ++ sub ++ rest)) as [i Hi]; [by exists pre, rest|].
  rewrite Hi. f_equal.
  destruct (decide (i < length pre)) as [Hlt|Hge].
  - exfalso. apply Hfirst.
    pose proof (find_Some _ _ _ Hi) as E.
    pose proof (find_Some_length _ _ _ Hi) as L.
    assert (length sub <> 0) by (destruct sub; [done | simpl; lia]).
    assert (length (take i (pre ++ sub ++ rest)) = i) as Li
      by (rewrite length_take; lia).
    exists (take i (pre ++ sub ++ rest)),
           (take (length pre + (length sub - 1) - (i + length sub))
                 (drop (i + length sub) (pre ++ sub ++ rest))).
    apply (f_equal (take (length pre + (length sub - 1)))) in E.
    rewrite take_app_add in E.
    rewrite E at 1.
    rewrite take_app_ge by lia. rewrite Li.
    rewrite (take_app_ge sub) by lia.
    do 3 f_equal. lia.
  - destruct (decide (length pre < i)) as [Hgt|]; [|lia].
    exfalso. pose proof (find_Some_first _ _ _ _ Hi Hgt) as Hno.
    rewrite drop_app_length in Hno.
    assert (Py.startswith sub (sub ++ rest) = true)
      by (apply startswith_prefix; eauto).
    congruence.
Qed.

(** C10. [justdomain] returns on every string.  If the string contains
    "//", the result is the text between the first "//" and the "/" that
    follows it (up to the end of the string when none follows); if not,
    it is 'bad referrer'. *)
Theorem justdomain_returns (url : str) :
  (exists domain, justdomain url = Ok domain)
  /\ (forall pre rest,
        url = pre ++ "//"%string ++ rest ->
        ~ infix "//"%string (pre ++ "/"%string) ->
        justdomain url = Ok (upto "/" rest))
  /\ (~ infix "//"%string url ->
      justdomain url = Ok ("bad referrer"%string : str)).
Proof.
  rewrite justdomain_value. split; [eauto|split].
  - intros pre rest -> Hfirst.
    rewrite (find_first_occurrence "//"%string pre rest); [|done|exact Hfirst].
    by rewrite drop_app_add.
  - intros Hnone. destruct (Py.find "//"%string url) as [i|] eqn:F; [|done].
    exfalso. apply Hnone. apply contains_infix. unfold Py.contains. by rewrite F.
Qed.

Lemma justdomain_returns_witness :
  justdomain "http://www.djangobook.com/en/2.0/"%string
  = Ok (upto "/" "www.djangobook.com/en/2.0/"%string)
  /\ justdomain "-"%string = Ok ("bad referrer"%string : str).
Proof.
  split.
  - apply (proj1 (proj2 (justdomain_returns "http://www.djangobook.com/en/2.0/"%string))
             "http:"%string "www.djangobook.com/en/2.0/"%string).
    + reflexivity.
    + intros H%contains_infix. vm_compute in H. discriminate.
  - apply (proj2 (proj2 (justdomain_returns "-"%string))).
    intros H%contains_infix. vm_compute in H. discriminate.
Defined.

(** ** The aggregation pass *)

Lemma index_raises {A} (l : list A) i e : Py.index l i = Raise e -> e = IndexError.
Proof. unfold Py.index. destruct (l !! i); congruence. Qed.

Lemma index_back_raises {A} (l : list A) k e :
  Py.index_back l k = Raise e -> e = IndexError.
Proof.
  unfold Py.index_back. destruct (decide _); [apply index_raises | congruence].
Qed.

Lemma index_Ok_length {A} (l : list A) i :
  is_ok (Py.index l i) = true <-> i < length l.
Proof.
  unfold Py.index. destruct (l !! i) eqn:E; simpl.
  - apply lookup_lt_Some in E. split; auto.
  - apply lookup_ge_None in E. split; [discriminate | lia].
Qed.

Lemma index_back_Ok_length {A} (l : list A) k :
  1 <= k -> is_ok (Py.index_back l k) = true <-> k <= length l.
Proof.
  intros Hk. unfold Py.index_back. destruct (decide _) as [H|H].
  - rewrite index_Ok_length. split; lia.
  - simpl. split; [discriminate | lia].
Qed.

(** The referrer of a page hit never stops the pass, and touches only the
    referrer list and the query counts. *)
Lemma count_referrer_Ok referrer st :
  exists st', count_referrer referrer st = Ok st'
    /\ pagecount st' = pagecount st /\ hits st' = hits st
    /\ lastres st' = lastres st.
Proof.
  unfold count_referrer. destruct (_ && _); [|eauto 6].
  destruct (Py.index_back (Py.split "?"%string referrer) 1) as [qs|e] eqn:E.
  - cbn.
    match goal with
    | |- context [match ?q with Some _ => _ | None => _ end] =>
        destruct q as [[|q0 ?]|]
    end; eauto 6.
  - exfalso. assert (is_ok (Py.index_back (Py.split "?"%string referrer) 1) = true) as H.
    { apply index_back_Ok_length; [lia | apply split_length]. }
    rewrite E in H. discriminate.
Qed.

Lemma count_line_unfold st line :
  count_line st line =
    match resource_of line with
    | Raise e => Raise e
    | Ok resource =>
        if ispage resource && negb (ignorelines line)
        then referrer ← referrer_of line; count_referrer referrer (counted resource st)
        else Ok st
    end.
Proof.
  unfold count_line, resource_of, referrer_of, counted.
  destruct (Py.index _ 6); reflexivity.
Qed.

Lemma count_line_raises st line e : count_line st line = Raise e -> e = IndexError.
Proof.
  rewrite count_line_unfold. destruct (resource_of line) as [r|e'] eqn:R.
  - destruct (_ && _); [|discriminate].
    destruct (referrer_of line) as [ref|e''] eqn:F; cbn.
    + destruct (count_referrer_Ok ref (counted r st)) as (st' & -> & _). discriminate.
    + intros [= <-]. eapply index_back_raises, F.
  - intros [= <-]. eapply index_raises, R.
Qed.

Lemma count_line_Ok st line st' :
  count_line st line = Ok st' ->
  exists resource, resource_of line = Ok resource /\
    if page_hit line
    then exists referrer, referrer_of line = Ok referrer
           /\ count_referrer referrer (counted resource st) = Ok st'
    else st' = st.
Proof.
  rewrite count_line_unfold. unfold page_hit.
  destruct (resource_of line) as [r|e]; [|discriminate].
  intros H. exists r. split; [reflexivity|].
  destruct (_ && _); [|congruence].
  destruct (referrer_of line) as [ref|e]; [|discriminate]. eauto.
Qed.

(** A line that [ignorelines] matches leaves every count as it is. *)
Lemma count_line_ignored st line st' :
  ignorelines line = true -> count_line st line = Ok st' -> st' = st.
Proof.
  intros Hi. rewrite count_line_unfold. destruct (resource_of line); [|discriminate].
  rewrite Hi, andb_false_r. congruence.
Qed.

Lemma incr_lookup k d r :
  default 0 (incr k d !! r) = default 0 (d !! r) + (if decide (k = r) then 1 else 0).
Proof.
  unfold incr. rewrite lookup_insert. destruct (decide (k = r)) as [->|]; simpl; lia.
Qed.

(** What one line adds to the counters. *)
Lemma count_line_counts st line st' :
  count_line st line = Ok st' ->
  pagecount st' = pagecount st + (if page_hit line then 1 else 0)
  /\ (forall r, default 0 (hits st' !! r) =
        default 0 (hits st !! r)
        + (if page_hit line && bool_decide (resource_of line = Ok r) then 1 else 0))
  /\ lastres st' =
       (if page_hit line
        then match resource_of line with Ok r => Some r | Raise _ => None end
        else lastres st).
Proof.
  intros (r & R & H)%count_line_Ok. rewrite R.
  destruct (page_hit line).
  - destruct H as (ref & _ & H).
    destruct (count_referrer_Ok ref (counted r st)) as (st2 & E & Hp & Hh & Hl).
    rewrite E in H. injection H as <-. rewrite Hp, Hh, Hl. simpl.
    split; [done|]. split; [|done].
    intros r'. rewrite incr_lookup.
    destruct (decide (r = r')) as [->|Hne].
    + by rewrite bool_decide_eq_true_2.
    + rewrite bool_decide_eq_false_2; [done | congruence].
  - subst st'. split; [lia|]. split; [|done]. intros r'. simpl. lia.
Qed.

Lemma page_resources_cons line rest :
  page_resources (line :: rest) =
    (if page_hit line
     then match resource_of line with Ok r => [r] | Raise _ => [] end
     else []) ++ page_resources rest.
Proof.
  unfold page_resources, page_hit. simpl.
  destruct (resource_of line); [|done]. by destruct (_ && _).
Qed.

(** What the loop adds to the counters. *)
Lemma count_lines_counts loglines : forall st st',
  count_lines st loglines = Ok st' ->
  pagecount st' = pagecount st + length (List.filter page_hit loglines)
  /\ (forall r, default 0 (hits st' !! r) =
        default 0 (hits st !! r)
        + length (List.filter
                    (fun line => page_hit line && bool_decide (resource_of line = Ok r))
                    loglines))
  /\ lastres st' = from_option Some (lastres st) (last (page_resources loglines))
  /\ count_lines st (List.filter (fun line => negb (ignorelines line)) loglines) = Ok st'.
Proof.
  induction loglines as [|line rest IH]; intros st st';
    cbn [count_lines List.filter].
  - intros [= <-]. simpl. repeat split; try lia.
  - intros (st1 & H1 & Hrest)%bind_Ok.
    destruct (IH _ _ Hrest) as (Hp & Hh & Hl & Hf).
    pose proof (count_line_counts _ _ _ H1) as (Hp1 & Hh1 & Hl1).
    split; [|split; [|split]].
    + rewrite Hp, Hp1. destruct (page_hit line); simpl; lia.
    + intros r. rewrite Hh, Hh1. destruct (_ && _); simpl; lia.
    + rewrite Hl, Hl1, page_resources_cons.
      destruct (page_hit line) eqn:P; [|done].
      destruct (resource_of line) as [r|e] eqn:R.
      * rewrite last_app. simpl. by destruct (last (page_resources rest)).
      * unfold page_hit in P. rewrite R in P. discriminate.
    + destruct (ignorelines line) eqn:I; simpl.
      * apply (count_line_ignored _ _ _ I) in H1. by subst st1.
      * rewrite H1. exact Hf.
Qed.

Lemma well_formed_count_line st line :
  well_formed line = true <-> exists st', count_line st line = Ok st'.
Proof.
  unfold well_formed. rewrite count_line_unfold. unfold page_hit.
  rewrite andb_true_iff, Nat.leb_le.
  pose proof (index_Ok_length (Py.split " "%string line) 6) as HL.
  fold (resource_of line) in HL.
  destruct (resource_of line) as [r|e]; simpl in HL.
  - assert (7 <= length (Py.split " "%string line)) by (apply HL; done).
    destruct (ispage r && negb (ignorelines line)); cbn [negb orb].
    + pose proof (index_back_Ok_length
                    (Py.split [dq] (Py.replace ("\"%string ++ [dq]) "&quot;"%string line))
                    4 ltac:(lia)) as HB.
      fold (referrer_of line) in HB. rewrite Nat.leb_le.
      destruct (referrer_of line) as [ref|e]; simpl in HB; cbn.
      * destruct (count_referrer_Ok ref (counted r st)) as (st' & E & _).
        split; [eauto|]. intros _. split; [done | by apply HB].
      * split; [|intros [? [=]]]. intros [_ H4]. apply HB in H4. discriminate.
    + split; [eauto | done].
  - split; [|intros [? [=]]]. intros [H7 _].
    assert (6 < length (Py.split " "%string line)) as H%HL by lia. discriminate.
Qed.

Lemma count_lines_raises loglines : forall st e,
  count_lines st loglines = Raise e -> e = IndexError.
Proof.
  induction loglines as [|line rest IH]; intros st e; simpl; [discriminate|].
  intros [H|(st1 & _ & H)]%bind_Raise; [eapply count_line_raises | eapply IH]; eauto.
Qed.

(** The loop completes exactly on well-formed lines. *)
Lemma count_lines_well_formed loglines : forall st,
  Forall (fun line => well_formed line = true) loglines
  <-> exists st', count_lines st loglines = Ok st'.
Proof.
  induction loglines as [|line rest IH]; intros st; simpl.
  - split; [eauto | constructor].
  - rewrite Forall_cons, (well_formed_count_line st). split.
    + intros [[st1 H1] Hrest]. apply (IH st1) in Hrest as [st' H].
      exists st'. rewrite H1. exact H.
    + intros [st' (st1 & H1 & H)%bind_Ok]. split; [eauto|].
      apply (IH st1). eauto.
Qed.

Lemma count_lines_short loglines : forall st,
  Exists (fun line => length (Py.split " "%string line) < 7) loglines ->
  count_lines st loglines = Raise IndexError.
Proof.
  induction loglines as [|line rest IH]; intros st H; [by apply Exists_nil in H|].
  apply Exists_cons in H. simpl.
  destruct (count_line st line) as [st1|e] eqn:E.
  - destruct H as [H|H]; [|by apply IH].
    exfalso. apply count_line_Ok in E as (r & R & _).
    assert (is_ok (resource_of line) = true) as L by (by rewrite R).
    apply index_Ok_length in L. lia.
  - apply count_line_raises in E as ->. reflexivity.
Qed.

(** *** [getOverview] *)

Lemma getOverview_Ok env loglines ov :
  getOverview env loglines = Ok ov ->
  exists st h m,
    count_lines no_counts loglines = Ok st
    /\ lastres st = Some (ov_lastrequest ov)
    /\ first_hit_elapsed env loglines = Ok (h, m)
    /\ is_ok (float_div (inject_Z (Z.of_nat (pagecount st)))
                (inject_Z h + inject_Z m / 60)) = true
    /\ ov_totalhits ov = length loglines
    /\ ov_hits ov = hits st /\ ov_pagecount ov = pagecount st
    /\ ov_referrers ov = referrers st /\ ov_queries ov = queries st
    /\ ov_hourssince ov = h /\ ov_minutessince ov = m.
Proof.
  unfold getOverview, first_hit_elapsed.
  destruct (Py.index loglines 0) as [line0|]; [|discriminate]. cbn [mbind result_bind].
  destruct (Py.index _ 3) as [stamp|]; [|discriminate]. cbn [mbind result_bind].
  destruct (count_lines no_counts loglines) as [st|]; [|discriminate].
  cbn [mbind result_bind].
  destruct (lastres st) as [r|] eqn:L; [|discriminate]. cbn [mbind result_bind].
  destruct (timeSinceApacheDate env _) as [[h m]|]; [|discriminate].
  cbn [mbind result_bind].
  destruct (float_div _ _) as [rate|] eqn:D; [|discriminate]. cbn [mbind result_bind].
  intros [= <-]. exists st, h, m. simpl. rewrite D. repeat split; done.
Qed.

(** C1, as the code has it.  A line with fewer than 7 space-delimited
    tokens is not skipped: on every line set that contains one,
    [getOverview] is left by an [IndexError] and produces no overview. *)
Theorem short_line_aborts_overview (env : Env) (loglines : list str) :
  Exists (fun line => length (Py.split " "%string line) < 7) loglines ->
  getOverview env loglines = Raise IndexError.
Proof.
  intros H. unfold getOverview.
  destruct (Py.index loglines 0) as [line0|e] eqn:E0;
    [|by apply index_raises in E0 as ->].
  cbn [mbind result_bind].
  destruct (Py.index _ 3) as [stamp|e] eqn:E3;
    [|by apply index_raises in E3 as ->].
  cbn [mbind result_bind].
  by rewrite (count_lines_short _ _ H).
Qed.

Lemma short_line_aborts_overview_witness :
  getOverview (Sample.env_at Sample.noon 7200)
    [Sample.docs_from_search; Sample.short_line; Sample.image]
  = Raise IndexError.
Proof.
  apply short_line_aborts_overview.
  apply Exists_cons_tl, Exists_cons_hd. vm_compute. lia.
Defined.

(** One short line among well-formed lines: without it the overview is
    produced, with it the pass is left by an exception. *)
Lemma short_line_counterexample :
  length (Py.split " "%string Sample.short_line) < 7
  /\ well_formed Sample.docs_from_search = true
  /\ well_formed Sample.image = true
  /\ is_ok (getOverview (Sample.env_at Sample.noon 7200)
              [Sample.docs_from_search; Sample.image]) = true
  /\ getOverview (Sample.env_at Sample.noon 7200)
       [Sample.docs_from_search; Sample.short_line; Sample.image]
     = Raise IndexError.
Proof.
  split; [vm_compute; lia|]. repeat split; vm_compute; reflexivity.
Qed.

(** C2, as the code has it.  When the first line of the window is 0 hours
    and 0 minutes old, [getOverview] returns no overview: an exception
    leaves it, and when every line is well formed and there is a page hit
    that exception is the [ZeroDivisionError] of the hit rate.  There is
    no guard and no fallback value. *)
Theorem zero_elapsed_raises (env : Env) (loglines : list str) :
  first_hit_elapsed env loglines = Ok (0, 0)%Z ->
  exists e, getOverview env loglines = Raise e
    /\ (Forall (fun line => well_formed line = true) loglines ->
        page_resources loglines <> [] ->
        e = ZeroDivisionError).
Proof.
  unfold first_hit_elapsed, getOverview. intros Ht.
  destruct (Py.index loglines 0) as [line0|]; [|discriminate].
  cbn [mbind result_bind] in *.
  destruct (Py.index _ 3) as [stamp|]; [|discriminate].
  cbn [mbind result_bind] in *.
  destruct (count_lines no_counts loglines) as [st|e] eqn:Hst.
  - cbn [mbind result_bind].
    apply count_lines_counts in Hst as (_ & _ & Hl & _).
    rewrite Hl. destruct (last (page_resources loglines)) as [r|] eqn:L.
    + cbn [from_option mbind result_bind]. rewrite Ht.
      exists ZeroDivisionError. split; reflexivity.
    + apply last_None in L. exists UnboundLocalError.
      split; [reflexivity | contradiction].
  - exists e. split; [reflexivity|]. intros Hwf _.
    apply (count_lines_well_formed loglines no_counts) in Hwf as [st Hst'].
    congruence.
Qed.

Lemma zero_elapsed_raises_witness :
  getOverview (Sample.env_at Sample.noon 30) Sample.window
  = Raise ZeroDivisionError.
Proof.
  destruct (zero_elapsed_raises (Sample.env_at Sample.noon 30) Sample.window)
    as (e & He & Hzero).
  - vm_compute. reflexivity.
  - rewrite He. f_equal. apply Hzero.
    + repeat constructor.
    + vm_compute. discriminate.
Defined.

(** The request comes 30 seconds after the first line of the window. *)
Lemma zero_elapsed_counterexample :
  first_hit_elapsed (Sample.env_at Sample.noon 30) Sample.window = Ok (0, 0)%Z
  /\ getOverview (Sample.env_at Sample.noon 30) Sample.window
     = Raise ZeroDivisionError.
Proof. split; vm_compute; reflexivity. Qed.

(** C4. In the overview of one pass, [pagecount] is the number of page
    hits (lines whose resource matches [ispage] and which do not match
    [ignorelines]), each counted once; the count of a resource is the
    number of page hits for it; and the lines that match [ignorelines]
    contribute nothing: without them the pass ends with the same
    per-resource counts, page count, query counts and referrers. *)
Theorem pagecount_counts_page_hits (env : Env) (loglines : list str) (ov : Overview) :
  getOverview env loglines = Ok ov ->
  ov_pagecount ov = length (List.filter page_hit loglines)
  /\ (forall r,
        default 0 (ov_hits ov !! r) =
        length (List.filter
                  (fun line => page_hit line && bool_decide (resource_of line = Ok r))
                  loglines))
  /\ exists st,
       count_lines no_counts
         (List.filter (fun line => negb (ignorelines line)) loglines) = Ok st
       /\ hits st = ov_hits ov /\ pagecount st = ov_pagecount ov
       /\ queries st = ov_queries ov /\ referrers st = ov_referrers ov.
Proof.
  intros (st & h & m & Hst & _ & _ & _ & _ & Hh & Hp & Hr & Hq & _)%getOverview_Ok.
  apply count_lines_counts in Hst as (Cp & Ch & _ & Cf).
  rewrite Hp, Hh, Hr, Hq. split; [exact Cp|]. split.
  - intros r. rewrite Ch. simpl. rewrite lookup_empty. reflexivity.
  - exists st. auto.
Qed.

Lemma pagecount_counts_page_hits_witness :
  ov_pagecount (Sample.returned (getOverview (Sample.env_at Sample.noon 7200) Sample.window))
  = length (List.filter page_hit Sample.window).
Proof.
  apply (pagecount_counts_page_hits (Sample.env_at Sample.noon 7200) Sample.window).
  vm_compute. reflexivity.
Defined.

(** The scenario of the specification: three hits on [/docs/], two of
    them referred by the site itself and one by a search for
    "Django+Book". *)
Example docs_scenario :
  let ov := Sample.returned
              (getOverview (Sample.env_at Sample.noon 7200)
                 [Sample.docs_from_site; Sample.docs_from_search; Sample.docs_from_site]) in
  ov_hits ov !! ("/docs/"%string : str) = Some 3
  /\ ov_queries ov = {[ ("django book"%string : str) := 1 ]}
  /\ map fst (ov_referrers ov) = [("http://www.google.com/search?q=Django+Book"%string : str)].
Proof. vm_compute. auto. Qed.

(** C7. Two runs of [getOverview] over the same lines, whatever the clock
    shows at each, return the same per-resource counts, page count, total
    and query counts. *)
Theorem overview_counts_repeatable (env1 env2 : Env) (loglines : list str)
    (ov1 ov2 : Overview) :
  getOverview env1 loglines = Ok ov1 ->
  getOverview env2 loglines = Ok ov2 ->
  ov_hits ov1 = ov_hits ov2 /\ ov_pagecount ov1 = ov_pagecount ov2
  /\ ov_totalhits ov1 = ov_totalhits ov2 /\ ov_queries ov1 = ov_queries ov2.
Proof.
  intros (st1 & ? & ? & Hst1 & _ & _ & _ & Ht1 & Hh1 & Hp1 & _ & Hq1 & _)%getOverview_Ok
         (st2 & ? & ? & Hst2 & _ & _ & _ & Ht2 & Hh2 & Hp2 & _ & Hq2 & _)%getOverview_Ok.
  rewrite Hst1 in Hst2. injection Hst2 as <-.
  rewrite Ht1, Hh1, Hp1, Hq1, Ht2, Hh2, Hp2, Hq2. auto.
Qed.

Lemma overview_counts_repeatable_witness :
  let ov1 := Sample.returned (getOverview (Sample.env_at Sample.noon 7200) Sample.window) in
  let ov2 := Sample.returned (getOverview (Sample.env_at Sample.noon 90000) Sample.window) in
  ov_hits ov1 = ov_hits ov2 /\ ov_pagecount ov1 = ov_pagecount ov2
  /\ ov_totalhits ov1 = ov_totalhits ov2 /\ ov_queries ov1 = ov_queries ov2.
Proof.
  intros ov1 ov2.
  apply (overview_counts_repeatable
           (Sample.env_at Sample.noon 7200) (Sample.env_at Sample.noon 90000)
           Sample.window);
    vm_compute; reflexivity.
Defined.

(** C9. [lastrequest] is the resource of the last page hit in the order
    of the lines, and an overview is returned only if there is a page hit:
    with none, [lastres] is never assigned and the call is left by an
    exception, [UnboundLocalError] when the loop has completed. *)
Theorem lastrequest_is_last_page_hit (env : Env) (loglines : list str) :
  (forall ov, getOverview env loglines = Ok ov ->
     last (page_resources loglines) = Some (ov_lastrequest ov))
  /\ (page_resources loglines = [] ->
      getOverview env loglines = Raise IndexError
      \/ getOverview env loglines = Raise UnboundLocalError)
  /\ (page_resources loglines = [] -> loglines <> [] ->
      Forall (fun line => well_formed line = true) loglines ->
      getOverview env loglines = Raise UnboundLocalError).
Proof.
  split; [|split].
  - intros ov (st & h & m & Hst & Hl & _)%getOverview_Ok.
    apply count_lines_counts in Hst as (_ & _ & Hl' & _).
    rewrite Hl in Hl'.
    destruct (last (page_resources loglines)); simpl in Hl'; congruence.
  - intros Hnone. unfold getOverview.
    destruct (Py.index loglines 0) as [line0|e] eqn:E0;
      [|apply index_raises in E0 as ->; by left].
    cbn [mbind result_bind].
    destruct (Py.index _ 3) as [stamp|e] eqn:E3;
      [|apply index_raises in E3 as ->; by left].
    cbn [mbind result_bind].
    destruct (count_lines no_counts loglines) as [st|e] eqn:Hst;
      [|apply count_lines_raises in Hst as ->; by left].
    apply count_lines_counts in Hst as (_ & _ & Hl & _).
    rewrite Hnone in Hl. simpl in Hl. cbn [mbind result_bind]. rewrite Hl. by right.
  - intros Hnone Hne Hwf. unfold getOverview.
    destruct loglines as [|line0 rest]; [done|]. cbn [Py.index lookup list_lookup].
    cbn [mbind result_bind].
    assert (is_ok (Py.index (Py.split " "%string line0) 3) = true) as H3.
    { apply index_Ok_length. apply Forall_cons in Hwf as [Hwf _].
      unfold well_formed in Hwf. apply andb_true_iff in Hwf as [Hwf%Nat.leb_le _]. lia. }
    destruct (Py.index _ 3) as [stamp|]; [|discriminate]. cbn [mbind result_bind].
    apply (count_lines_well_formed _ no_counts) in Hwf as [st Hst]. rewrite Hst.
    apply count_lines_counts in Hst as (_ & _ & Hl & _).
    rewrite Hnone in Hl. simpl in Hl. cbn [mbind result_bind]. rewrite Hl. reflexivity.
Qed.

Lemma lastrequest_is_last_page_hit_witness :
  last (page_resources Sample.window)
  = Some (ov_lastrequest
            (Sample.returned (getOverview (Sample.env_at Sample.noon 7200) Sample.window)))
  /\ getOverview (Sample.env_at Sample.noon 7200) [Sample.image]
     = Raise UnboundLocalError.
Proof.
  split.
  - apply (proj1 (lastrequest_is_last_page_hit
                    (Sample.env_at Sample.noon 7200) Sample.window)).
    vm_compute. reflexivity.
  - apply (proj2 (proj2 (lastrequest_is_last_page_hit
                           (Sample.env_at Sample.noon 7200) [Sample.image]))).
    + vm_compute. reflexivity.
    + discriminate.
    + repeat constructor.
Defined.

(** ** Referrers from the site itself *)

Lemma thisdomain_eq : justdomain rooturl = Ok thisdomain.
Proof. reflexivity. Qed.

Lemma justdomain_infix referrer host :
  justdomain referrer = Ok host ->
  host = ("bad referrer"%string : str) \/ infix host referrer.
Proof.
  rewrite justdomain_value.
  destruct (Py.find "//"%string referrer) as [i|]; intros [= <-]; [right | by left].
  destruct (upto_prefix "/" (drop (i + 2) referrer)) as [t Ht].
  exists (take (i + 2) referrer), t.
  rewrite <- Ht. symmetry. apply take_drop.
Qed.

(** A referrer whose host contains the domain of the site contains it. *)
Lemma own_host_found referrer host :
  justdomain referrer = Ok host ->
  Py.contains thisdomain host = true ->
  Py.find thisdomain referrer <> None.
Proof.
  intros [->|Hin]%justdomain_infix Hc.
  - vm_compute in Hc. discriminate.
  - apply contains_infix in Hc.
    assert (infix thisdomain referrer) as [i ->]%find_infix
      by (eapply infix_trans; eauto).
    done.
Qed.

(** C6. A page hit whose referrer has a host that contains the domain of
    the site is counted as a hit, but its referrer is not appended to the
    referrer list and no query is taken from it: the referrer list and
    the query counts stay as they were. *)
Theorem own_domain_referrer_skipped (st : Counts) (line referrer host : str) :
  page_hit line = true ->
  referrer_of line = Ok referrer ->
  justdomain referrer = Ok host ->
  Py.contains thisdomain host = true ->
  exists st', count_line st line = Ok st'
    /\ referrers st' = referrers st /\ queries st' = queries st.
Proof.
  intros Hpage Href Hhost Hown. rewrite count_line_unfold.
  unfold page_hit in Hpage.
  destruct (resource_of line) as [r|]; [|discriminate].
  rewrite Hpage, Href. cbn [mbind result_bind]. unfold count_referrer.
  rewrite (bool_decide_eq_false_2 (Py.find thisdomain referrer = None))
    by (eapply own_host_found; eauto).
  rewrite andb_false_r. eauto.
Qed.

Lemma own_domain_referrer_skipped_witness :
  exists st', count_line no_counts Sample.docs_from_site = Ok st'
    /\ referrers st' = referrers no_counts /\ queries st' = queries no_counts.
Proof.
  apply (own_domain_referrer_skipped no_counts Sample.docs_from_site
           ("http://www.djangobook.com/en/2.0/"%string : str)
           ("www.djangobook.com"%string : str));
    vm_compute; reflexivity.
Defined.

(** No referrer in the list of a completed pass contains the domain of
    the site. *)
Lemma count_referrer_listed referrer st st' :
  count_referrer referrer st = Ok st' ->
  Forall (fun rq => Py.find thisdomain rq.1 = None) (referrers st) ->
  Forall (fun rq => Py.find thisdomain rq.1 = None) (referrers st').
Proof.
  unfold count_referrer.
  destruct (1 <? length referrer); simpl; [|by intros [= <-]].
  destruct (bool_decide _) eqn:B; [|by intros [= <-]].
  apply bool_decide_eq_true in B.
  destruct (Py.index_back _ 1); [|discriminate]. cbn.
  match goal with
  | |- context [match ?q with Some _ => _ | None => _ end] =>
      destruct q as [[|q0 ?]|]
  end; intros [= <-] H; simpl; apply Forall_app; split; auto.
Qed.

Lemma listed_referrers_foreign loglines : forall st st',
  count_lines st loglines = Ok st' ->
  Forall (fun rq => Py.find thisdomain rq.1 = None) (referrers st) ->
  Forall (fun rq => Py.find thisdomain rq.1 = None) (referrers st').
Proof.
  induction loglines as [|line rest IH]; intros st st'; simpl.
  - by intros [= <-].
  - intros (st1 & H1 & Hrest)%bind_Ok Hst. eapply IH; [exact Hrest|].
    apply count_line_Ok in H1 as (r & _ & H1).
    destruct (page_hit line); [|by subst].
    destruct H1 as (ref & _ & H1). eapply count_referrer_listed; eauto.
Qed.

(** ** The DNS cache *)

(** The value of [getDNS], in closed form. *)
Lemma getDNS_value (db : Dbm) (ip : str) :
  getDNS db ip =
    Ok (if dbm_opens db && dbm_reads db && dbm_closes db
        then default ip (dbm_data db !! ip)
        else ip).
Proof.
  unfold getDNS, dbm_open, dbm_has_key, dbm_getitem, dbm_close.
  destruct (dbm_opens db); [|reflexivity].
  destruct (dbm_reads db); [|reflexivity]. cbn.
  destruct (dbm_data db !! ip) as [h|] eqn:E.
  - rewrite bool_decide_eq_true_2 by eauto. cbn.
    destruct (dbm_closes db); reflexivity.
  - rewrite bool_decide_eq_false_2 by (intros [? [=]]). cbn.
    destruct (dbm_closes db); reflexivity.
Qed.

Lemma cache_addr_returns (db : Dbm) (ip addr : str) :
  (cache_addr db ip addr).2 = Ok ().
Proof.
  unfold cache_addr, dbm_open, dbm_setitem, dbm_close.
  destruct (bool_decide _); [|reflexivity].
  destruct (dbm_opens db); [|reflexivity].
  destruct (dbm_writes db); [|reflexivity]. simpl.
  destruct (dbm_closes db); reflexivity.
Qed.

(** An entry that [ipdetails] has stored is what [getDNS] returns
    afterwards. *)
Lemma getDNS_after_cache (db : Dbm) (ip addr : str) :
  addr <> ("unknown host"%string : str) ->
  dbm_opens db && dbm_reads db && dbm_writes db && dbm_closes db = true ->
  getDNS (cache_addr db ip addr).1 ip = Ok addr.
Proof.
  intros Hne Hok. apply andb_true_iff in Hok as [Hok Hc].
  apply andb_true_iff in Hok as [Hok Hw]. apply andb_true_iff in Hok as [Ho Hr].
  assert ((cache_addr db ip addr).1 =
          {| dbm_opens := dbm_opens db; dbm_reads := dbm_reads db;
             dbm_writes := dbm_writes db; dbm_closes := dbm_closes db;
             dbm_data := <[ip := addr]> (dbm_data db) |}) as ->.
  { unfold cache_addr, dbm_open, dbm_setitem.
    rewrite bool_decide_eq_true_2 by done. by rewrite Ho, Hw. }
  rewrite getDNS_value. cbn [dbm_opens dbm_reads dbm_closes dbm_data].
  by rewrite Ho, Hr, Hc, lookup_insert_eq.
Qed.

(** C5. [getDNS] always returns: the cached host name when the cache can
    be opened, read and closed and holds one for the address, and the
    address itself in every other case.  The write of a new entry in
    [ipdetails] never raises, whichever operation of the cache fails. *)
Theorem getDNS_never_raises (db : Dbm) (ip : str) :
  getDNS db ip =
    Ok (if dbm_opens db && dbm_reads db && dbm_closes db
        then default ip (dbm_data db !! ip)
        else ip)
  /\ forall addr, (cache_addr db ip addr).2 = Ok ().
Proof.
  split; [apply getDNS_value | intros addr; apply cache_addr_returns].
Qed.

(** ** The line source *)

(** [split] at a single character, one character at a time. *)
Lemma split_char_cons c a s :
  Py.split [c] (a :: s) =
    if Py.eqb_ascii a c then [] :: Py.split [c] s
    else match Py.split [c] s with
         | x :: r => (a :: x) :: r
         | [] => [[a]]
         end.
Proof.
  rewrite (split_eq [c] (a :: s)) by done.
  cbn [Py.find Py.startswith]. unfold Py.eqb_ascii. rewrite andb_true_r.
  rewrite (bool_decide_ext (c = a) (a = c)) by (split; congruence).
  destruct (bool_decide (a = c)); [reflexivity|].
  rewrite (split_eq [c] s) by done.
  destruct (Py.find [c] s) as [i|]; reflexivity.
Qed.

(** Splitting a file at its newlines gives its complete lines, and then
    what follows the last newline. *)
Lemma split_nl_file_lines s : exists t, Py.split [nl] s = file_lines s ++ [t].
Proof.
  induction s as [|a s [t IH]].
  - by exists [].
  - rewrite split_char_cons, IH. cbn [file_lines].
    destruct (Py.eqb_ascii a nl); [by exists t|].
    destruct (file_lines s) as [|x r]; simpl; eauto.
Qed.

(** Splitting from a position inside the file: the pieces after the first
    one are pieces of the whole file. *)
Lemma split_char_app c a b :
  exists pre y x rest,
    Py.split [c] a = pre ++ [y] /\ Py.split [c] b = x :: rest
    /\ Py.split [c] (a ++ b) = pre ++ (y ++ x) :: rest.
Proof.
  induction a as [|h a (pre & y & x & rest & Ha & Hb & Hab)].
  - pose proof (split_length [c] b) as L.
    destruct (Py.split [c] b) as [|x rest] eqn:E; [simpl in L; lia|].
    exists [], [], x, rest. simpl. by rewrite E.
  - exists (if Py.eqb_ascii h c then [] :: pre
            else match pre with [] => [] | p :: ps => (h :: p) :: ps end),
           (if Py.eqb_ascii h c then y
            else match pre with [] => h :: y | _ :: _ => y end),
           x, rest.
    simpl app. rewrite !split_char_cons, Ha, Hab, Hb.
    destruct (Py.eqb_ascii h c); [done|]. by destruct pre.
Qed.

Lemma lastn_app {A} (n : nat) (l1 l2 : list A) :
  n <= length l2 -> lastn n (l1 ++ l2) = lastn n l2.
Proof.
  intros H. unfold lastn. rewrite length_app.
  replace (length l1 + length l2 - n) with (length l1 + (length l2 - n)) by lia.
  by rewrite drop_app_add.
Qed.

Lemma lastn_all {A} (n : nat) (l : list A) : length l <= n -> lastn n l = l.
Proof. intros H. unfold lastn. by replace (length l - n) with 0 by lia. Qed.

Lemma lastn_length {A} (n : nat) (l : list A) :
  n <= length l -> length (lastn n l) = n.
Proof. intros H. unfold lastn. rewrite length_drop. lia. Qed.

(** Lines 80-82 on the pieces of a read that ends with the file. *)
Lemma tail_slice (n : nat) (ls : list str) (t : str) :
  let lines := ls ++ [t] in
  Py.slice lines
    (if n <? length lines then length lines - n - 1 else 0)
    (length lines - 1)
  = lastn n ls.
Proof.
  intros lines. subst lines. rewrite length_app.
  change (length [t]) with 1. unfold Py.slice, lastn.
  destruct (n <? length ls + 1) eqn:E.
  - apply Nat.ltb_lt in E.
    replace (length ls + 1 - n - 1) with (length ls - n) by lia.
    replace (length ls + 1 - 1 - (length ls - n)) with n by lia.
    rewrite drop_app_le by lia.
    rewrite take_app_le by (rewrite length_drop; lia).
    apply take_ge. rewrite length_drop. lia.
  - apply Nat.ltb_ge in E.
    replace (length ls - n) with 0 by lia.
    replace (length ls + 1 - 1 - 0) with (length ls) by lia.
    by rewrite !drop_0, take_app_length.
Qed.

(** What the loop hands over: the pieces read from some position, which
    is the start of the file unless more than [linesback + 1] pieces were
    read. *)
Lemma tailLines_loop_post content linesback fuel : forall avg lines,
  tailLines_loop fuel content linesback avg = Some lines ->
  exists pos, lines = Py.split [nl] (drop pos content)
    /\ (pos = 0 \/ linesback + 1 < length lines).
Proof.
  induction fuel as [|fuel IH]; intros avg lines; simpl; [discriminate|].
  set (pos := match seek_end _ _ with Ok p => p | Raise _ => 0 end).
  destruct (_ || _) eqn:E; [|apply IH].
  intros [= <-]. exists pos. split; [reflexivity|].
  apply orb_true_iff in E as [E%Nat.ltb_lt|E%Nat.eqb_eq]; auto.
Qed.

(** The result of lines 80-82 is the tail of the complete lines. *)
Lemma tail_of_pieces content linesback pos :
  let lines := Py.split [nl] (drop pos content) in
  pos = 0 \/ linesback + 1 < length lines ->
  Py.slice lines
    (if linesback <? length lines then length lines - linesback - 1 else 0)
    (length lines - 1)
  = lastn linesback (file_lines content).
Proof.
  intros lines [->|Hlen].
  - subst lines. rewrite drop_0.
    destruct (split_nl_file_lines content) as [t ->]. apply tail_slice.
  - destruct (split_nl_file_lines content) as [t Hfull].
    destruct (split_char_app nl (take pos content) (drop pos content))
      as (pre & y & x & rest & _ & Hb & Hab).
    rewrite take_drop, Hfull in Hab. subst lines. rewrite Hb in *.
    destruct (exists_last (l := rest)) as (rest' & t' & ->).
    { intros ->. simpl in Hlen. lia. }
    change (pre ++ (y ++ x) :: rest' ++ [t'])
      with (pre ++ ((y ++ x) :: rest') ++ [t']) in Hab.
    rewrite app_assoc in Hab. apply app_inj_tail in Hab as [-> ->].
    change (x :: rest' ++ [t']) with ((x :: rest') ++ [t']).
    rewrite tail_slice.
    simpl in Hlen. rewrite length_app in Hlen. simpl in Hlen.
    change (x :: rest') with ([x] ++ rest').
    change (pre ++ (y ++ x) :: rest') with (pre ++ [y ++ x] ++ rest').
    rewrite app_assoc. rewrite !lastn_app by lia. reflexivity.
Qed.

(** How far back from the end the loop seeks. *)
Lemma seek_offset_next (avg n : Q) :
  (150 <= avg * n)%Q ->
  (150 <= avg * (13 # 10) * n)%Q
  /\ (Qtrunc (-1 * (avg * (13 # 10)) * n) <= Qtrunc (-1 * avg * n) - 1)%Z.
Proof.
  intros H. split; [lra|].
  unfold Qtrunc.
  destruct (Qle_bool 0 (-1 * (avg * (13 # 10)) * n)) eqn:E1;
    [apply Qle_bool_iff in E1; lra|].
  destruct (Qle_bool 0 (-1 * avg * n)) eqn:E2;
    [apply Qle_bool_iff in E2; lra|].
  pose proof (Qle_ceiling (-1 * avg * n)) as Hc.
  set (k := Qceiling (-1 * avg * n)) in *.
  rewrite <- (Qceiling_Z (k - 1)).
  apply Qceiling_resp_le.
  replace (inject_Z (k - 1)) with (inject_Z k - 1)%Q
    by (unfold Z.sub; rewrite inject_Z_plus; reflexivity).
  lra.
Qed.

(** With [linesback >= 1] the loop is left: every retry seeks further
    back, until the seek lands on or before the start of the file. *)
Lemma tailLines_loop_terminates content linesback fuel : forall avg,
  (150 <= avg * inject_Z (Z.of_nat linesback))%Q ->
  (0 < Z.of_nat fuel)%Z ->
  (Z.of_nat (length content)
   + Qtrunc (-1 * avg * inject_Z (Z.of_nat linesback)) < Z.of_nat fuel)%Z ->
  exists lines, tailLines_loop fuel content linesback avg = Some lines.
Proof.
  induction fuel as [|fuel IH]; intros avg Havg Hpos Hfuel; [lia|].
  cbn [tailLines_loop]. unfold seek_end.
  set (off := Qtrunc (-1 * avg * inject_Z (Z.of_nat linesback))) in *.
  destruct (Z.of_nat (length content) + off <? 0)%Z eqn:E.
  - cbn [Nat.eqb]. rewrite orb_true_r. eauto.
  - apply Z.ltb_ge in E.
    destruct (decide (Z.of_nat (length content) + off = 0)%Z) as [Hz|Hz].
    + rewrite Hz. cbn [Z.to_nat Nat.eqb]. rewrite orb_true_r. eauto.
    + destruct (_ || _); [eauto|].
      destruct (seek_offset_next avg _ Havg) as [Havg' Hoff].
      fold off in Hoff. apply (IH _ Havg'); lia.
Qed.

Lemma Qtrunc_zero (x : Q) : (x == 0)%Q -> Qtrunc x = 0%Z.
Proof.
  intros H. unfold Qtrunc.
  assert (Qle_bool 0 x = true) as -> by (apply Qle_bool_iff; lra).
  rewrite <- (Qfloor_Z 0). apply Qfloor_comp. exact H.
Qed.

(** With [linesback = 0] the seek stays at the end of the file, where one
    empty piece is read: on a file that is not empty neither exit of the
    loop is ever taken.  (A Python float overflows after some 2700
    retries and [seek] then raises; a list is not returned either way.) *)
Lemma tailLines_loop_zero content fuel : forall avg,
  content <> [] -> tailLines_loop fuel content 0 avg = None.
Proof.
  induction fuel as [|fuel IH]; intros avg Hne; [reflexivity|].
  cbn [tailLines_loop].
  rewrite Qtrunc_zero by (change (inject_Z (Z.of_nat 0)) with 0%Q; ring).
  unfold seek_end. rewrite Z.add_0_r.
  destruct (Z.of_nat (length content) <? 0)%Z eqn:E; [apply Z.ltb_lt in E; lia|].
  rewrite Nat2Z.id, drop_all.
  destruct content as [|a content]; [done|].
  cbn [length Nat.eqb orb]. change (0 + 1 <? length (Py.split [nl] [])) with false.
  cbn [orb]. by apply IH.
Qed.

(** Whenever [tailLines] returns, it returns the tail of the complete
    lines. *)
Lemma tailLines_partial fuel content linesback result :
  tailLines fuel content linesback = Some result ->
  result = lastn linesback (file_lines content).
Proof.
  unfold tailLines.
  destruct (tailLines_loop fuel content linesback 150) as [lines|] eqn:Hloop;
    [|discriminate].
  cbn [mbind option_bind]. intros [= <-].
  destruct (tailLines_loop_post _ _ _ _ _ Hloop) as (pos & -> & Hpos).
  by apply tail_of_pieces.
Qed.

(** C3, as the code has it.  For [linesback >= 1], [tailLines] returns,
    and it returns the last [linesback] complete lines of the file in
    their order when the file has that many, and all of its complete
    lines when it has fewer. *)
Theorem tailLines_returns_tail (content : str) (linesback : nat) :
  1 <= linesback ->
  exists fuel result,
    tailLines fuel content linesback = Some result
    /\ (linesback <= length (file_lines content) ->
        length result = linesback
        /\ exists before, file_lines content = before ++ result)
    /\ (length (file_lines content) < linesback ->
        result = file_lines content).
Proof.
  intros HN.
  set (off := Qtrunc (-1 * 150 * inject_Z (Z.of_nat linesback))).
  set (fuel := Z.to_nat (Z.max 1 (Z.of_nat (length content) + off + 1))).
  assert (150 <= 150 * inject_Z (Z.of_nat linesback))%Q as Havg.
  { assert (inject_Z 1 <= inject_Z (Z.of_nat linesback))%Q as H
      by (rewrite <- Zle_Qle; lia).
    change (inject_Z 1) with 1%Q in H. lra. }
  destruct (tailLines_loop_terminates content linesback fuel 150 Havg)
    as [lines Hloop]; [lia | fold off; lia |].
  destruct (tailLines fuel content linesback) as [result|] eqn:Hres;
    [|unfold tailLines in Hres; rewrite Hloop in Hres; discriminate].
  apply tailLines_partial in Hres as Hspec. subst result.
  exists fuel, (lastn linesback (file_lines content)).
  split; [exact Hres|split].
  - intros H. split; [by apply lastn_length|].
    exists (take (length (file_lines content) - linesback) (file_lines content)).
    unfold lastn. by rewrite take_drop.
  - intros H. apply lastn_all. lia.
Qed.

Lemma tailLines_returns_tail_witness :
  exists fuel result,
    tailLines fuel
      ("a"%string ++ [nl] ++ "b"%string ++ [nl] ++ "c"%string ++ [nl] ++ "d"%string) 2
    = Some result
    /\ (2 <= 3 -> length result = 2
        /\ exists before, [["a"%char]; ["b"%char]; ["c"%char]] = before ++ result)
    /\ (3 < 2 -> result = [["a"%char]; ["b"%char]; ["c"%char]]).
Proof.
  apply (tailLines_returns_tail
           ("a"%string ++ [nl] ++ "b"%string ++ [nl] ++ "c"%string ++ [nl] ++ "d"%string) 2).
  lia.
Defined.

(** Asked for the last 0 lines of a file that is not empty, [tailLines]
    does not return. *)
Lemma tailLines_zero_counterexample :
  ~ exists fuel result, tailLines fuel ("a"%string ++ [nl]) 0 = Some result.
Proof.
  intros (fuel & result & H). unfold tailLines in H.
  rewrite tailLines_loop_zero in H by done. discriminate.
Qed.

(** ** The per-address view *)

Lemma lstrip_length s : length (Py.lstrip s) <= length s.
Proof.
  induction s as [|c s IH]; simpl; [lia|]. destruct (Py.is_space c); simpl; lia.
Qed.

Lemma strip_length s : length (Py.strip s) <= length s.
Proof.
  unfold Py.strip. rewrite length_rev.
  etransitivity; [apply lstrip_length|]. rewrite length_rev. apply lstrip_length.
Qed.

(** The browser that is shown has at most 50 characters of the user
    agent, and three dots after them when the user agent is longer. *)
Lemma shorten_agent_length user_agent :
  length (shorten_agent user_agent) <= 53
  /\ (length user_agent <= 50 -> shorten_agent user_agent = user_agent).
Proof.
  unfold shorten_agent. destruct (50 <? length user_agent) eqn:E.
  - apply Nat.ltb_lt in E. split; [|lia].
    rewrite length_app. change (length (list_ascii_of_string "...")) with 3.
    pose proof (strip_length (Py.slice user_agent 0 50)) as H.
    unfold Py.slice in *. rewrite length_take in H. lia.
  - apply Nat.ltb_ge in E. split; [lia | done].
Qed.

Lemma shown_referrers_app o1 o2 :
  shown_referrers (o1 ++ o2) = shown_referrers o1 ++ shown_referrers o2.
Proof. apply omap_app. Qed.

Lemma browsers_app o1 o2 : browsers (o1 ++ o2) = browsers o1 ++ browsers o2.
Proof. apply omap_app. Qed.

Lemma page_numbers_app o1 o2 :
  page_numbers (o1 ++ o2) = page_numbers o1 ++ page_numbers o2.
Proof. apply omap_app. Qed.

(** What one line prints and does to the two counters. *)
Lemma detail_line_Ok env ip counter pagecounter line out counter' pagecounter' :
  detail_line env ip counter pagecounter line = Ok (out, counter', pagecounter') ->
  if bool_decide (address_of line = Ok ip) then
    counter' = counter + 1
    /\ pagecounter' = pagecounter + (if is_page_line line then 1 else 0)
    /\ page_numbers out = (if is_page_line line then [pagecounter] else [])
    /\ (if counter =? 1 then
          exists referrer user_agent,
            Py.index_back (Py.split [dq] line) 4 = Ok referrer
            /\ Py.index_back (Py.split [dq] line) 2 = Ok user_agent
            /\ shown_referrers out = (if 1 <? length referrer then [referrer] else [])
            /\ browsers out = [shorten_agent user_agent]
        else shown_referrers out = [] /\ browsers out = [])
  else out = [] /\ counter' = counter /\ pagecounter' = pagecounter.
Proof.
  unfold detail_line, address_of, is_page_line, resource_of.
  destruct (Py.index (Py.split " "%string line) 0) as [address|]; [|discriminate].
  cbn [mbind result_bind].
  destruct (decide (address = ip)) as [->|Hne].
  2: { rewrite !bool_decide_eq_false_2 by congruence. by intros [= <- <- <-]. }
  rewrite !bool_decide_eq_true_2 by done.
  destruct (Py.index _ 3) as [stamp|]; [|discriminate]. cbn [mbind result_bind].
  destruct (Py.index _ 6) as [resource|]; [|discriminate]. cbn [mbind result_bind].
  destruct (counter =? 1).
  - destruct (Py.index_back _ 4) as [referrer|]; [|discriminate].
    cbn [mbind result_bind].
    destruct (Py.index_back _ 2) as [user_agent|]; [|discriminate].
    cbn [mbind result_bind].
    destruct (ispage resource); intros [= <- <- <-];
      (split; [done|]; split; [done|]);
      rewrite ?page_numbers_app, ?shown_referrers_app, ?browsers_app;
      destruct (1 <? length referrer) eqn:L; simpl;
      (split; [done|]); exists referrer, user_agent; by rewrite L.
  - cbn [mbind result_bind].
    destruct (ispage resource); intros [= <- <- <-]; done.
Qed.

(** After the first line of the address the loop shows no further
    referrer or browser. *)
Lemma detail_lines_later env ip loglines : forall counter pagecounter out,
  1 < counter ->
  detail_lines env ip counter pagecounter loglines = (out, Ok ()) ->
  shown_referrers out = [] /\ browsers out = [].
Proof.
  induction loglines as [|line rest IH]; intros counter pagecounter out Hc;
    cbn [detail_lines].
  - by intros [= <-].
  - destruct (detail_line env ip counter pagecounter line)
      as [[[o c'] pc']|] eqn:E; [|discriminate].
    destruct (detail_lines env ip c' pc' rest) as [outs r] eqn:Er.
    intros [= <- ->]. apply detail_line_Ok in E.
    rewrite shown_referrers_app, browsers_app.
    destruct (bool_decide _).
    + destruct E as (-> & _ & _ & E).
      assert ((counter =? 1) = false) as Hb by (apply Nat.eqb_neq; lia).
      rewrite Hb in E. destruct E as [-> ->].
      apply (IH (counter + 1) pc' outs); [lia | done].
    + destruct E as (-> & -> & ->). by apply (IH counter pagecounter outs).
Qed.

(** The pages are numbered by [pagecounter] alone. *)
Lemma detail_lines_pages env ip loglines : forall counter pagecounter out,
  detail_lines env ip counter pagecounter loglines = (out, Ok ()) ->
  page_numbers out =
    seq pagecounter (length (List.filter is_page_line (hits_from ip loglines))).
Proof.
  induction loglines as [|line rest IH]; intros counter pagecounter out;
    cbn [detail_lines hits_from List.filter].
  - by intros [= <-].
  - destruct (detail_line env ip counter pagecounter line)
      as [[[o c'] pc']|] eqn:E; [|discriminate].
    destruct (detail_lines env ip c' pc' rest) as [outs r] eqn:Er.
    intros [= <- ->]. apply detail_line_Ok in E. apply IH in Er.
    rewrite page_numbers_app, Er. fold (hits_from ip rest).
    destruct (bool_decide _).
    + destruct E as (_ & -> & -> & _). cbn [List.filter].
      destruct (is_page_line line); simpl; [|by rewrite Nat.add_0_r].
      by rewrite Nat.add_1_r.
    + by destruct E as (-> & _ & ->).
Qed.

(** The first line of the address shows its browser, and its referrer if
    that has more than one character. *)
Lemma detail_lines_first env ip loglines : forall pagecounter out,
  detail_lines env ip 1 pagecounter loglines = (out, Ok ()) ->
  match hits_from ip loglines with
  | [] => shown_referrers out = [] /\ browsers out = []
  | first :: _ =>
      exists referrer user_agent,
        Py.index_back (Py.split [dq] first) 4 = Ok referrer
        /\ Py.index_back (Py.split [dq] first) 2 = Ok user_agent
        /\ shown_referrers out = (if 1 <? length referrer then [referrer] else [])
        /\ browsers out = [shorten_agent user_agent]
  end.
Proof.
  induction loglines as [|line rest IH]; intros pagecounter out;
    cbn [detail_lines hits_from List.filter].
  - by intros [= <-].
  - destruct (detail_line env ip 1 pagecounter line)
      as [[[o c'] pc']|] eqn:E; [|discriminate].
    destruct (detail_lines env ip c' pc' rest) as [outs r] eqn:Er.
    intros [= <- ->]. apply detail_line_Ok in E. fold (hits_from ip rest).
    rewrite shown_referrers_app, browsers_app.
    destruct (bool_decide _).
    + destruct E as (-> & _ & _ & E). cbn [Nat.eqb] in E.
      destruct E as (referrer & user_agent & H4 & H2 & -> & ->).
      apply detail_lines_later in Er as [-> ->]; [|lia].
      exists referrer, user_agent. by rewrite !app_nil_r.
    + destruct E as (-> & -> & ->). by apply IH in Er.
Qed.

Lemma ipdetails_Ok env gethostbyaddr db ip loglines db' out :
  ipdetails env gethostbyaddr db ip loglines = (db', out, Ok ()) ->
  exists outs,
    detail_lines env ip 1 1 loglines = (outs, Ok ())
    /\ out = OutVisit ip (lookup_addr gethostbyaddr ip) :: outs ++ [OutEnd].
Proof.
  unfold ipdetails.
  destruct (cache_addr db ip _) as [db1 [[]|]]; [|discriminate].
  destruct (detail_lines env ip 1 1 loglines) as [outs [[]|]]; [|discriminate].
  intros [= <- <-]. eauto.
Qed.

(** C8, as the code has it.  In the per-address view the first hit of the
    address shows its browser, which is the user agent itself when that
    has at most 50 characters and otherwise its first 50 characters,
    stripped, with three dots appended (at most 53 characters); it shows
    its referrer only when that has more than one character.  The page
    hits of the address are numbered 1, 2, 3, ... by a counter of their
    own. *)
Theorem ipdetails_first_hit_and_pages (env : Env) (gethostbyaddr : str -> option str)
    (db : Dbm) (ip : str) (loglines : list str) (db' : Dbm) (out : list Out) :
  ipdetails env gethostbyaddr db ip loglines = (db', out, Ok ()) ->
  match hits_from ip loglines with
  | [] => shown_referrers out = [] /\ browsers out = []
  | first :: _ =>
      exists referrer user_agent,
        Py.index_back (Py.split [dq] first) 4 = Ok referrer
        /\ Py.index_back (Py.split [dq] first) 2 = Ok user_agent
        /\ shown_referrers out = (if 1 <? length referrer then [referrer] else [])
        /\ browsers out = [shorten_agent user_agent]
        /\ length (shorten_agent user_agent) <= 53
        /\ (length user_agent <= 50 -> shorten_agent user_agent = user_agent)
  end
  /\ page_numbers out =
       seq 1 (length (List.filter is_page_line (hits_from ip loglines))).
Proof.
  intros (outs & Hloop & ->)%ipdetails_Ok.
  change (OutVisit ip (lookup_addr gethostbyaddr ip) :: outs ++ [OutEnd])
    with ([OutVisit ip (lookup_addr gethostbyaddr ip)] ++ outs ++ [OutEnd]).
  rewrite !shown_referrers_app, !browsers_app, !page_numbers_app.
  cbn [shown_referrers browsers page_numbers omap app]. rewrite !app_nil_r.
  split; [|by eapply detail_lines_pages].
  apply detail_lines_first in Hloop.
  destruct (hits_from ip loglines) as [|first ?]; [done|].
  destruct Hloop as (referrer & user_agent & ? & ? & ? & ?).
  destruct (shorten_agent_length user_agent).
  exists referrer, user_agent. auto 10.
Qed.

Lemma ipdetails_first_hit_and_pages_witness :
  page_numbers
    (ipdetails (Sample.env_at Sample.noon 7200) (fun _ => None) Sample.cache
       "203.0.113.5"%string Sample.window).1.2
  = seq 1 (length (List.filter is_page_line
                     (hits_from "203.0.113.5"%string Sample.window))).
Proof.
  apply (ipdetails_first_hit_and_pages
           (Sample.env_at Sample.noon 7200) (fun _ => None) Sample.cache
           "203.0.113.5"%string Sample.window Sample.cache).
  vm_compute. reflexivity.
Defined.

(** A first visit without referrer and with a user agent of 60
    characters: no referrer is shown, and the browser that is shown has
    53 characters. *)
Lemma ipdetails_counterexample :
  let '(_, out, r) :=
    ipdetails (Sample.env_at Sample.noon 7200) (fun _ => None) Sample.cache
      "203.0.113.9"%string [Sample.direct_visit] in
  r = Ok () /\ shown_referrers out = [] /\ map length (browsers out) = [53].
Proof. vm_compute. auto. Qed.

(** * Further properties of the code *)

(** ** The time since a timestamp *)

(** [timeSinceApacheDate] in whole numbers: the hours and the minutes of
    the time elapsed, rounded down to the minute. *)
Lemma timeSinceApacheDate_value env stamp t :
  mktime_strptime env stamp = Some t ->
  timeSinceApacheDate env stamp
  = Ok ((now env - t) / 3600, (now env - t) mod 3600 / 60)%Z.
Proof.
  intros Ht. unfold timeSinceApacheDate. rewrite Ht. cbn [mbind result_bind].
  set (d := (now env - t)%Z).
  assert (Qfloor (inject_Z d / 60 / 60) = (d / 3600)%Z) as Hh.
  { rewrite Zdiv_Qdiv. apply Qfloor_comp.
    change (inject_Z 3600) with 3600%Q. field. }
  rewrite Hh. do 2 f_equal.
  assert (inject_Z d / 60 - 60 * inject_Z (d / 3600)
          == inject_Z (d mod 3600) / inject_Z 60)%Q as Hm.
  { rewrite Z.mod_eq by lia. unfold Z.sub.
    rewrite inject_Z_plus, inject_Z_opp, inject_Z_mult.
    change (inject_Z 3600) with 3600%Q. change (inject_Z 60) with 60%Q. field. }
  unfold Qtrunc.
  assert (Qle_bool 0 (inject_Z d / 60 - 60 * inject_Z (d / 3600)) = true) as ->.
  { apply Qle_bool_iff. rewrite Hm.
    apply Qle_shift_div_l; [reflexivity|]. rewrite Qmult_0_l.
    change 0%Q with (inject_Z 0). rewrite <- Zle_Qle.
    apply Z.mod_pos_bound. lia. }
  rewrite (Zdiv_Qdiv (d mod 3600) 60). apply Qfloor_comp. exact Hm.
Qed.

(** X1. The hours and minutes that [timeSinceApacheDate] returns are the
    elapsed time rounded down to the minute: the minutes are between 0
    and 59, also when the timestamp lies in the future (the hours are
    then negative). *)
Theorem timeSinceApacheDate_bounds (env : Env) (stamp : str) (h m : Z) :
  timeSinceApacheDate env stamp = Ok (h, m) ->
  exists t, mktime_strptime env stamp = Some t
    /\ (0 <= m < 60)%Z
    /\ (60 * (60 * h + m) <= now env - t < 60 * (60 * h + m) + 60)%Z.
Proof.
  destruct (mktime_strptime env stamp) as [t|] eqn:Ht.
  - rewrite (timeSinceApacheDate_value _ _ _ Ht). intros [= <- <-].
    exists t. split; [reflexivity|].
    set (d := (now env - t)%Z).
    pose proof (Z.div_mod d 3600 ltac:(lia)) as H1.
    pose proof (Z.mod_pos_bound d 3600 ltac:(lia)) as H2.
    pose proof (Z.div_mod (d mod 3600) 60 ltac:(lia)) as H3.
    pose proof (Z.mod_pos_bound (d mod 3600) 60 ltac:(lia)) as H4.
    assert (0 <= d mod 3600 / 60 < 60)%Z.
    { split; [apply Z.div_pos; lia | apply Z.div_lt_upper_bound; lia]. }
    lia.
  - unfold timeSinceApacheDate. rewrite Ht. discriminate.
Qed.

Lemma timeSinceApacheDate_bounds_witness :
  exists t, mktime_strptime (Sample.env_at Sample.noon (-30)) Sample.noon = Some t
    /\ (0 <= 59 < 60)%Z
    /\ (60 * (60 * -1 + 59)
        <= now (Sample.env_at Sample.noon (-30)) - t
        < 60 * (60 * -1 + 59) + 60)%Z.
Proof.
  apply (timeSinceApacheDate_bounds (Sample.env_at Sample.noon (-30)) Sample.noon).
  vm_compute. reflexivity.
Defined.

Lemma timeSinceApacheDate_minutes env stamp h m :
  timeSinceApacheDate env stamp = Ok (h, m) -> (0 <= m < 60)%Z.
Proof.
  destruct (mktime_strptime env stamp) as [t|] eqn:Ht.
  - rewrite (timeSinceApacheDate_value _ _ _ Ht). intros [= <- <-].
    pose proof (Z.mod_pos_bound (now env - t) 3600 ltac:(lia)).
    split; [apply Z.div_pos; lia | apply Z.div_lt_upper_bound; lia].
  - unfold timeSinceApacheDate. rewrite Ht. discriminate.
Qed.

(** The divisor of the hit rate is zero only for 0 hours and 0 minutes. *)
Lemma hit_rate_divisor_zero (h m : Z) :
  (0 <= m < 60)%Z ->
  Qeq_bool (inject_Z h + inject_Z m / 60) 0 = true <-> (h, m) = (0, 0)%Z.
Proof.
  intros Hm. rewrite Qeq_bool_iff. split.
  - intros H.
    assert (inject_Z (60 * h + m) == inject_Z 0)%Q as E.
    { rewrite inject_Z_plus, inject_Z_mult.
      change (inject_Z 60) with 60%Q. change (inject_Z 0) with 0%Q.
      apply (Qeq_trans _ (60 * (inject_Z h + inject_Z m / 60))); [field|].
      rewrite H. reflexivity. }
    pose proof (proj1 (inject_Z_injective (60 * h + m) 0) E) as E'.
    assert (h = 0 /\ m = 0)%Z as [-> ->] by lia. reflexivity.
  - intros [= -> ->]. reflexivity.
Qed.

(** X2. [getOverview] returns an overview exactly when every line is
    well formed, at least one line is a page hit, the timestamp of the
    first line can be read, and the first line is not 0 hours and 0
    minutes old.  In every other case an exception leaves it. *)
Theorem getOverview_returns_iff (env : Env) (loglines : list str) :
  (exists ov, getOverview env loglines = Ok ov)
  <-> Forall (fun line => well_formed line = true) loglines
      /\ page_resources loglines <> []
      /\ exists h m, first_hit_elapsed env loglines = Ok (h, m)
           /\ (h, m) <> (0, 0)%Z.
Proof.
  split.
  - intros [ov (st & h & m & Hst & Hl & Ht & Hdiv & _)%getOverview_Ok].
    split; [apply (count_lines_well_formed loglines no_counts); eauto|].
    apply count_lines_counts in Hst as (_ & _ & Hl' & _).
    split.
    + intros Hnone. rewrite Hnone, Hl in Hl'. discriminate.
    + exists h, m. split; [exact Ht|]. intros [= -> ->].
      vm_compute in Hdiv. discriminate.
  - intros (Hwf & Hpages & h & m & Ht & Hne).
    apply (count_lines_well_formed loglines no_counts) in Hwf as [st Hst].
    unfold getOverview. unfold first_hit_elapsed in Ht.
    destruct (Py.index loglines 0) as [line0|]; [|discriminate].
    cbn [mbind result_bind] in *.
    destruct (Py.index _ 3) as [stamp|]; [|discriminate].
    cbn [mbind result_bind] in *.
    rewrite Hst. cbn [mbind result_bind].
    apply count_lines_counts in Hst as (_ & _ & Hl & _). rewrite Hl.
    destruct (last (page_resources loglines)) as [r|] eqn:L;
      [|by apply last_None in L].
    cbn [from_option mbind result_bind]. rewrite Ht. cbn [mbind result_bind].
    unfold float_div.
    destruct (Qeq_bool (inject_Z h + inject_Z m / 60) 0) eqn:E.
    + apply hit_rate_divisor_zero in E; [done|].
      eapply timeSinceApacheDate_minutes, Ht.
    + cbn [mbind result_bind]. eauto.
Qed.

Lemma getOverview_returns_iff_witness :
  exists ov, getOverview (Sample.env_at Sample.noon 7200) Sample.window = Ok ov.
Proof.
  apply (proj2 (getOverview_returns_iff (Sample.env_at Sample.noon 7200) Sample.window)).
  split; [repeat constructor|]. split; [vm_compute; discriminate|].
  exists 2%Z, 0%Z. split; [vm_compute; reflexivity | discriminate].
Defined.

(** ** What the pass counts *)

Lemma total_incr k d : total (incr k d) = total d + 1.
Proof.
  unfold total, incr. destruct (d !! k) as [v|] eqn:E; simpl.
  - rewrite <- (insert_delete_eq d k (v + 1)).
    rewrite map_to_list_insert by apply lookup_delete_eq.
    rewrite <- (insert_id d k v E) at 2.
    rewrite <- (insert_delete_eq d k v).
    rewrite (map_to_list_insert (delete k d) k v) by apply lookup_delete_eq.
    simpl. lia.
  - rewrite map_to_list_insert by done. simpl. lia.
Qed.

Lemma lower_lower s : Py.lower (Py.lower s) = Py.lower s.
Proof.
  unfold Py.lower. rewrite map_map. apply map_ext. intros c.
  destruct c as [[|] [|] [|] [|] [|] [|] [|] [|]]; reflexivity.
Qed.

Lemma asked_app q l1 l2 : asked q (l1 ++ l2) = asked q l1 + asked q l2.
Proof. unfold asked. by rewrite List.filter_app, length_app. Qed.

(** What the referrer of a page hit adds to the referrer list and to the
    query counts. *)
Lemma count_referrer_adds referrer st st' :
  count_referrer referrer st = Ok st' ->
  exists new,
    referrers st' = referrers st ++ new
    /\ new.*1 = (if foreign referrer then [referrer] else [])
    /\ (forall q, default 0 (queries st' !! q)
                  = default 0 (queries st !! q) + asked q new)
    /\ (forall q, is_Some (queries st' !! q) ->
                  is_Some (queries st !! q) \/ Py.lower q = q).
Proof.
  unfold count_referrer. fold (foreign referrer).
  destruct (foreign referrer).
  2: { intros [= <-]. exists []. rewrite app_nil_r.
       repeat split; auto; intros q; unfold asked; simpl; lia. }
  destruct (Py.index_back _ 1) as [qs|]; [|discriminate]. cbn [mbind result_bind].
  match goal with
  | |- context [match ?q with Some _ => _ | None => _ end] =>
      destruct q as [[|q0 ?]|]
  end; intros [= <-]; cbn [referrers queries].
  - exists [(referrer, None)]. repeat split; auto; intros q; unfold asked; simpl; lia.
  - exists [(referrer, Some (Py.lower q0))]. repeat split.
    + intros q. rewrite incr_lookup. unfold asked. cbn [List.filter snd].
      destruct (decide (Py.lower q0 = q)) as [->|Hne].
      * by rewrite bool_decide_eq_true_2.
      * by rewrite bool_decide_eq_false_2 by congruence.
    + intros q. unfold incr. rewrite lookup_insert.
      destruct (decide (Py.lower q0 = q)) as [<-|]; [|by left].
      intros _. right. apply lower_lower.
  - exists [(referrer, None)]. repeat split; auto; intros q; unfold asked; simpl; lia.
Qed.

Lemma listed_cons line rest :
  listed (line :: rest) =
    (if page_hit line
     then match referrer_of line with
          | Ok referrer => if foreign referrer then [referrer] else []
          | Raise _ => []
          end
     else []) ++ listed rest.
Proof.
  unfold listed. cbn [omap list_omap]. destruct (page_hit line); [|done].
  destruct (referrer_of line) as [r|]; [|done]. by destruct (foreign r).
Qed.

(** What the loop adds to the counts, to the referrer list and to the
    query counts. *)
Lemma count_lines_adds loglines : forall st st',
  count_lines st loglines = Ok st' ->
  total (hits st') = total (hits st) + length (List.filter page_hit loglines)
  /\ exists new,
       referrers st' = referrers st ++ new
       /\ new.*1 = listed loglines
       /\ (forall q, default 0 (queries st' !! q)
                     = default 0 (queries st !! q) + asked q new)
       /\ (forall q, is_Some (queries st' !! q) ->
                     is_Some (queries st !! q) \/ Py.lower q = q).
Proof.
  induction loglines as [|line rest IH]; intros st st'; cbn [count_lines List.filter].
  - intros [= <-]. split; [simpl; lia|]. exists []. rewrite app_nil_r.
    repeat split; auto; intros q; unfold asked; simpl; lia.
  - intros (st1 & H1 & Hrest)%bind_Ok.
    destruct (IH _ _ Hrest) as (Ht & new2 & Hr2 & Hl2 & Hq2 & Hk2).
    rewrite listed_cons.
    apply count_line_Ok in H1 as (r & R & H1).
    destruct (page_hit line).
    + destruct H1 as (ref & -> & H1).
      destruct (count_referrer_Ok ref (counted r st)) as (st1' & E & _ & Hh & _).
      rewrite E in H1. injection H1 as <-.
      apply count_referrer_adds in E as (new1 & Hr1 & Hl1 & Hq1 & Hk1).
      split.
      * rewrite Ht, Hh. cbn [hits counted]. rewrite total_incr. simpl. lia.
      * exists (new1 ++ new2). rewrite Hr2, Hr1. cbn [referrers counted].
        rewrite fmap_app, Hl1, Hl2, app_assoc. repeat split.
        -- intros q. rewrite Hq2, Hq1, asked_app. cbn [queries counted]. lia.
        -- intros q [Hq|Hq]%Hk2; [|by right]. by apply Hk1 in Hq.
    + subst st1. split; [simpl; lia|]. exists new2. auto.
Qed.

Lemma listed_length loglines :
  length (listed loglines) <= length (List.filter page_hit loglines).
Proof.
  induction loglines as [|line rest IH]; [done|].
  rewrite listed_cons, length_app. cbn [List.filter].
  destruct (page_hit line); [|simpl; lia].
  destruct (referrer_of line) as [r|]; [destruct (foreign r)|]; simpl; lia.
Qed.

(** X3. In every overview the counts of the resources add up to
    [pagecount], and [pagecount] is at most [totalhits]. *)
Theorem hits_add_up_to_pagecount (env : Env) (loglines : list str) (ov : Overview) :
  getOverview env loglines = Ok ov ->
  total (ov_hits ov) = ov_pagecount ov /\ ov_pagecount ov <= ov_totalhits ov.
Proof.
  intros (st & h & m & Hst & _ & _ & _ & Ht & Hh & Hp & _)%getOverview_Ok.
  rewrite Hh, Hp, Ht.
  pose proof (count_lines_counts _ _ _ Hst) as (Cp & _).
  apply count_lines_adds in Hst as (Ct & _).
  rewrite Ct, Cp. cbn [hits pagecount no_counts]. split.
  - unfold total. by rewrite map_to_list_empty.
  - simpl. apply List.filter_length_le.
Qed.

Lemma hits_add_up_to_pagecount_witness :
  let ov := Sample.returned (getOverview (Sample.env_at Sample.noon 7200) Sample.window) in
  total (ov_hits ov) = ov_pagecount ov /\ ov_pagecount ov <= ov_totalhits ov.
Proof.
  intros ov.
  apply (hits_add_up_to_pagecount (Sample.env_at Sample.noon 7200) Sample.window).
  vm_compute. reflexivity.
Defined.

(** X4. The referrer list of an overview holds, in the order of the
    lines, the referrer of every page hit whose referrer has more than
    one character and does not contain the domain of the site, and
    nothing else; it has at most [pagecount] entries. *)
Theorem referrers_are_the_listed (env : Env) (loglines : list str) (ov : Overview) :
  getOverview env loglines = Ok ov ->
  (ov_referrers ov).*1 = listed loglines
  /\ length (ov_referrers ov) <= ov_pagecount ov.
Proof.
  intros (st & h & m & Hst & _ & _ & _ & _ & _ & Hp & Hr & _)%getOverview_Ok.
  rewrite Hr, Hp.
  pose proof (count_lines_counts _ _ _ Hst) as (Cp & _).
  apply count_lines_adds in Hst as (_ & new & Hnew & Hl & _).
  cbn [referrers no_counts app] in Hnew. rewrite Hnew, Cp.
  split; [exact Hl|]. rewrite <- (length_fmap fst new), Hl. simpl. apply listed_length.
Qed.

Lemma referrers_are_the_listed_witness :
  let ov := Sample.returned (getOverview (Sample.env_at Sample.noon 7200) Sample.window) in
  (ov_referrers ov).*1 = listed Sample.window
  /\ length (ov_referrers ov) <= ov_pagecount ov.
Proof.
  intros ov.
  apply (referrers_are_the_listed (Sample.env_at Sample.noon 7200) Sample.window).
  vm_compute. reflexivity.
Defined.

(** X5. In every overview the count of a query is the number of entries
    of the referrer list that carry this query, and every query that is
    counted is in lower case: queries that differ only in case are
    counted together. *)
Theorem queries_count_the_referrers (env : Env) (loglines : list str) (ov : Overview) :
  getOverview env loglines = Ok ov ->
  (forall q, default 0 (ov_queries ov !! q) = asked q (ov_referrers ov))
  /\ (forall q, is_Some (ov_queries ov !! q) -> Py.lower q = q).
Proof.
  intros (st & h & m & Hst & _ & _ & _ & _ & _ & _ & Hr & Hq & _)%getOverview_Ok.
  rewrite Hr, Hq.
  apply count_lines_adds in Hst as (_ & new & Hnew & _ & Hcount & Hkeys).
  cbn [referrers queries no_counts app] in *. rewrite Hnew. split.
  - intros q. rewrite Hcount, lookup_empty. reflexivity.
  - intros q [Hq'|Hq']%Hkeys; [|done].
    rewrite lookup_empty in Hq'. by destruct Hq'.
Qed.

Lemma queries_count_the_referrers_witness :
  let ov := Sample.returned (getOverview (Sample.env_at Sample.noon 7200) Sample.window) in
  (forall q, default 0 (ov_queries ov !! q) = asked q (ov_referrers ov))
  /\ (forall q, is_Some (ov_queries ov !! q) -> Py.lower q = q).
Proof.
  intros ov.
  apply (queries_count_the_referrers (Sample.env_at Sample.noon 7200) Sample.window).
  vm_compute. reflexivity.
Defined.

(** ** Reading the log *)

Lemma file_lines_no_newline content :
  Forall (fun line => nl ∉ line) (file_lines content).
Proof.
  induction content as [|c rest IH]; cbn [file_lines]; [constructor|].
  unfold Py.eqb_ascii. destruct (decide (c = nl)) as [->|Hne].
  - rewrite bool_decide_eq_true_2 by done. constructor; [|done].
    apply not_elem_of_nil.
  - rewrite bool_decide_eq_false_2 by done.
    destruct (file_lines rest) as [|line lines]; [constructor|].
    apply Forall_cons in IH as [Hline Hlines]. constructor; [|done].
    rewrite not_elem_of_cons. split; [congruence | done].
Qed.

Lemma file_lines_partial t : nl ∉ t -> file_lines t = [].
Proof.
  induction t as [|c t IH]; [done|]. rewrite not_elem_of_cons. intros [Hc Ht].
  cbn [file_lines]. unfold Py.eqb_ascii.
  rewrite bool_decide_eq_false_2 by congruence. by rewrite IH.
Qed.

Lemma file_lines_line line rest :
  nl ∉ line -> file_lines (line ++ nl :: rest) = line :: file_lines rest.
Proof.
  induction line as [|c line IH]; intros Hline; cbn [app file_lines].
  - unfold Py.eqb_ascii. by rewrite bool_decide_eq_true_2.
  - apply not_elem_of_cons in Hline as [Hc Hline]. unfold Py.eqb_ascii.
    rewrite bool_decide_eq_false_2 by congruence. by rewrite IH.
Qed.

(** Reading back what was written. *)
Lemma file_lines_written lines partial :
  Forall (fun line => nl ∉ line) lines -> nl ∉ partial ->
  file_lines (written lines partial) = lines.
Proof.
  intros Hlines Hpartial. unfold written.
  induction Hlines as [|line lines Hline _ IH]; cbn [map concat app].
  - by apply file_lines_partial.
  - rewrite <- !app_assoc. cbn [app]. rewrite file_lines_line by done.
    by rewrite IH.
Qed.

(** With [linesback >= 1], enough fuel lets [tailLines] return. *)
Lemma tailLines_enough_fuel content linesback :
  1 <= linesback ->
  exists fuel,
    tailLines fuel content linesback = Some (lastn linesback (file_lines content)).
Proof.
  intros HN.
  set (off := Qtrunc (-1 * 150 * inject_Z (Z.of_nat linesback))).
  set (fuel := Z.to_nat (Z.max 1 (Z.of_nat (length content) + off + 1))).
  assert (150 <= 150 * inject_Z (Z.of_nat linesback))%Q as Havg.
  { assert (inject_Z 1 <= inject_Z (Z.of_nat linesback))%Q as H
      by (rewrite <- Zle_Qle; lia).
    change (inject_Z 1) with 1%Q in H. lra. }
  destruct (tailLines_loop_terminates content linesback fuel 150 Havg)
    as [lines Hloop]; [lia | fold off; lia |].
  exists fuel.
  destruct (tailLines fuel content linesback) as [result|] eqn:Hres;
    [|unfold tailLines in Hres; rewrite Hloop in Hres; discriminate].
  by apply tailLines_partial in Hres as ->.
Qed.

(** X6. No line that [tailLines] returns contains a newline. *)
Theorem tailLines_lines_without_newline (fuel : nat) (content : str)
    (linesback : nat) (result : list str) :
  tailLines fuel content linesback = Some result ->
  Forall (fun line => nl ∉ line) result.
Proof.
  intros ->%tailLines_partial. unfold lastn.
  apply Forall_drop, file_lines_no_newline.
Qed.

Lemma tailLines_lines_without_newline_witness :
  Forall (fun line => nl ∉ line) [["b"%char]; ["c"%char]].
Proof.
  apply (tailLines_lines_without_newline 5
           ("a"%string ++ [nl] ++ "b"%string ++ [nl] ++ "c"%string ++ [nl]) 2).
  vm_compute. reflexivity.
Defined.

(** X7. Reading back what was written: when lines without newlines were
    written to a file, each followed by a newline, [tailLines] with
    [linesback >= 1] returns the last [linesback] of them (all of them
    when there are fewer), whether or not an unfinished line follows. *)
Theorem tailLines_reads_back (lines : list str) (partial : str) (linesback : nat) :
  1 <= linesback ->
  Forall (fun line => nl ∉ line) lines -> nl ∉ partial ->
  exists fuel,
    tailLines fuel (written lines partial) linesback = Some (lastn linesback lines).
Proof.
  intros HN Hlines Hpartial.
  destruct (tailLines_enough_fuel (written lines partial) linesback HN) as [fuel H].
  exists fuel. by rewrite file_lines_written in H.
Qed.

Lemma tailLines_reads_back_witness :
  exists fuel,
    tailLines fuel (written [Sample.docs_from_search; Sample.image] "203.0."%string) 1
    = Some (lastn 1 [Sample.docs_from_search; Sample.image]).
Proof.
  apply tailLines_reads_back.
  - lia.
  - apply (bool_decide_eq_true_1 _). vm_compute. reflexivity.
  - apply (bool_decide_eq_true_1 _). vm_compute. reflexivity.
Defined.

(** X8. When the log file can be opened, [getLogLines] returns the last
    5000 complete lines of it (all of them when there are fewer) without
    running the system's tail, and raises 'No lines found' when the file
    has no complete line.  Whatever the file and the system's tail give,
    it never returns an empty list. *)
Theorem getLogLines_of_readable_file (content : str) (system_tail : list str) :
  (exists fuel,
     getLogLines fuel (Some content) system_tail
     = Some (match file_lines content with
             | [] => No_lines_found
             | _ :: _ => Fetched_lines (lastn lastlines (file_lines content))
             end))
  /\ (forall fuel file logLines,
        getLogLines fuel file system_tail = Some (Fetched_lines logLines) ->
        logLines <> []).
Proof.
  split.
  - destruct (tailLines_enough_fuel content lastlines) as [fuel H];
      [unfold lastlines; lia|].
    exists fuel. unfold getLogLines. rewrite H. cbn [mbind option_bind].
    f_equal. unfold lastn.
    destruct (file_lines content) as [|line lines] eqn:E; [reflexivity|].
    rewrite length_drop.
    assert (length (line :: lines) - (length (line :: lines) - lastlines) <> 0)
      by (unfold lastlines; simpl; lia).
    by destruct (_ - _).
  - intros fuel file logLines. unfold getLogLines.
    destruct (match file with Some _ => _ | None => _ end) as [l|]; [|discriminate].
    cbn [mbind option_bind]. destruct l; [discriminate|]. by intros [= <-].
Qed.

Lemma getLogLines_of_readable_file_witness :
  [Sample.image] <> [].
Proof.
  apply (proj2 (getLogLines_of_readable_file [] [Sample.image]) 0 None).
  reflexivity.
Defined.

(** ** Sorting by value *)

Lemma str_le_total a : forall b, str_le a b = true \/ str_le b a = true.
Proof.
  induction a as [|x a IH]; intros [|y b]; cbn [str_le]; auto.
  destruct (IH b) as [H|H]; rewrite H, !andb_true_r, !orb_true_iff,
    !Nat.ltb_lt, !Nat.eqb_eq; lia.
Qed.

Lemma str_le_trans a : forall b c,
  str_le a b = true -> str_le b c = true -> str_le a c = true.
Proof.
  induction a as [|x a IH]; intros [|y b] [|z c]; cbn [str_le]; auto;
    try discriminate.
  rewrite !orb_true_iff, !andb_true_iff, !Nat.ltb_lt, !Nat.eqb_eq.
  intros [H1|[H1 H1']] [H2|[H2 H2']]; try (left; lia).
  right. split; [lia | eauto].
Qed.

#[global] Instance backitem_le_total : Total backitem_le.
Proof.
  intros [v1 k1] [v2 k2]. unfold backitem_le. cbn [fst snd].
  destruct (str_le_total k1 k2); destruct (Nat.lt_trichotomy v1 v2) as [|[|]];
    auto.
Qed.

#[global] Instance backitem_le_trans : Transitive backitem_le.
Proof.
  intros [v1 k1] [v2 k2] [v3 k3]. unfold backitem_le. cbn [fst snd].
  intros [H1|[H1 H1']] [H2|[H2 H2']]; try (left; lia).
  right. split; [lia | eapply str_le_trans; eauto].
Qed.

Lemma StronglySorted_rev {A} (R : relation A) (l : list A) :
  StronglySorted R l -> StronglySorted (flip R) (rev l).
Proof.
  induction 1 as [|x l Hl IH Hx]; cbn [rev]; [constructor|].
  apply StronglySorted_app_2; [|exact IH|repeat constructor].
  intros x1 x2 Hx1 ->%list_elem_of_singleton. unfold flip.
  rewrite Forall_forall in Hx. apply Hx, list_elem_of_In, in_rev, list_elem_of_In, Hx1.
Qed.

Lemma StronglySorted_map {A B} (R1 : relation A) (R2 : relation B) (f : A -> B)
    (l : list A) :
  (forall x y, x ∈ l -> y ∈ l -> R1 x y -> R2 (f x) (f y)) ->
  StronglySorted R1 l -> StronglySorted R2 (map f l).
Proof.
  intros Hf Hl. induction Hl as [|x l Hl IH Hx]; cbn [map]; constructor.
  - apply IH. intros y z Hy Hz. apply Hf; by right.
  - rewrite Forall_forall in Hx. apply Forall_forall.
    intros y (z & <- & Hz%list_elem_of_In)%list_elem_of_In%in_map_iff.
    apply Hf; [left | by right | by apply Hx].
Qed.

Lemma sortByValue_Permutation d : sortByValue d ≡ₚ (map_to_list d).*1.
Proof.
  unfold sortByValue. rewrite <- Permutation_rev, merge_sort_Permutation.
  rewrite map_map. reflexivity.
Qed.

Lemma sortByValue_elem_of d k : k ∈ sortByValue d <-> is_Some (d !! k).
Proof.
  rewrite sortByValue_Permutation, list_elem_of_fmap. split.
  - intros ([k' v] & -> & H%elem_of_map_to_list). eauto.
  - intros [v H]. exists (k, v). split; [done | by apply elem_of_map_to_list].
Qed.

Lemma sortByValue_NoDup d : NoDup (sortByValue d).
Proof. rewrite sortByValue_Permutation. apply NoDup_fst_map_to_list. Qed.

Lemma sortByValue_sorted d : StronglySorted (ranked_before d) (sortByValue d).
Proof.
  unfold sortByValue.
  set (backitems := map (fun v => (v.2, v.1)) (map_to_list d)).
  apply (StronglySorted_map (flip backitem_le)).
  - intros [v1 k1] [v2 k2] H1 H2.
    assert (forall v k, (v, k) ∈ rev (merge_sort backitem_le backitems) ->
                        value d k = v) as Hval.
    { intros v k Hin. apply list_elem_of_In, in_rev, list_elem_of_In in Hin.
      rewrite merge_sort_Permutation in Hin.
      apply list_elem_of_fmap in Hin as ([k' v'] & [= -> ->] & Hin).
      apply elem_of_map_to_list in Hin. unfold value. by rewrite Hin. }
    unfold flip, backitem_le, ranked_before. cbn [fst snd].
    by rewrite (Hval _ _ H1), (Hval _ _ H2).
  - apply StronglySorted_rev, StronglySorted_merge_sort; apply _.
Qed.

(** X9. [sortByValue] returns every key of the dictionary exactly once,
    in the order of decreasing values; keys with the same value come in
    decreasing order of the keys. *)
Theorem sortByValue_sorts (d : gmap str nat) :
  sortByValue d ≡ₚ (map_to_list d).*1
  /\ NoDup (sortByValue d)
  /\ StronglySorted (ranked_before d) (sortByValue d).
Proof.
  split; [apply sortByValue_Permutation|].
  split; [apply sortByValue_NoDup | apply sortByValue_sorted].
Qed.

(** ** The overview page *)

Lemma shown_pages_app o1 o2 : shown_pages (o1 ++ o2) = shown_pages o1 ++ shown_pages o2.
Proof. apply omap_app. Qed.

Lemma shown_urls_app o1 o2 : shown_urls (o1 ++ o2) = shown_urls o1 ++ shown_urls o2.
Proof. apply omap_app. Qed.

Lemma shown_searches_app o1 o2 :
  shown_searches (o1 ++ o2) = shown_searches o1 ++ shown_searches o2.
Proof. apply omap_app. Qed.

(** The loop over the pages returns when the keys are keys of [hits], and
    prints those with at least [minresults] hits. *)
Lemma show_pages_Ok cgiloc hits keys :
  Forall (fun k => is_Some (hits !! k)) keys ->
  exists outs,
    show_pages cgiloc hits keys = (outs, Ok ())
    /\ shown_pages outs = List.filter (fun k => minresults <=? value hits k) keys
    /\ shown_urls outs = [] /\ shown_searches outs = [].
Proof.
  induction 1 as [|k keys [v Hk] _ (outs & IH & Hp & Hu & Hs)]; cbn [show_pages].
  - by exists [].
  - assert (value hits k = v) as Hv by (unfold value; by rewrite Hk).
    unfold getitem. rewrite Hk, IH. cbn [List.filter]. rewrite Hv.
    eexists. split; [reflexivity|].
    rewrite shown_pages_app, shown_urls_app, shown_searches_app, Hp, Hu, Hs.
    by destruct (minresults <=? v).
Qed.

(** The loop over the referrers always returns. *)
Lemma show_referrers_Ok referrers :
  exists outs,
    show_referrers referrers = (outs, Ok ())
    /\ shown_urls outs = map escaped referrers.*1
    /\ shown_pages outs = [] /\ shown_searches outs = [].
Proof.
  induction referrers as [|[referrer query] rest (outs & IH & Hu & Hp & Hs)];
    cbn [show_referrers].
  - by exists [].
  - rewrite justdomain_value, IH. eexists. split; [reflexivity|].
    change (ShownReferrer ?r ?d :: ?q ++ ShownBreak :: outs)
      with ([ShownReferrer r d] ++ q ++ [ShownBreak] ++ outs).
    rewrite !shown_pages_app, !shown_urls_app, !shown_searches_app, Hu, Hp, Hs.
    by destruct query as [[|c q]|].
Qed.

Lemma show_searches_Ok queries keys :
  Forall (fun k => is_Some (queries !! k)) keys ->
  exists outs,
    show_searches queries keys = (outs, Ok ())
    /\ shown_searches outs = keys
    /\ shown_pages outs = [] /\ shown_urls outs = [].
Proof.
  induction 1 as [|k keys [v Hk] _ (outs & IH & Hs & Hp & Hu)]; cbn [show_searches].
  - by exists [].
  - unfold getitem. rewrite Hk, IH. eexists. split; [reflexivity|].
    change (ShownSearch ?a ?b ?c :: outs) with ([ShownSearch a b c] ++ outs).
    by rewrite shown_pages_app, shown_urls_app, shown_searches_app, Hs, Hp, Hu.
Qed.

Lemma sortByValue_keys d : Forall (fun k => is_Some (d !! k)) (sortByValue d).
Proof. apply Forall_forall. intros k. apply sortByValue_elem_of. Qed.

(** What [displayOverviewHTML] returns and prints. *)
Lemma displayOverviewHTML_Ok overview :
  exists out,
    displayOverviewHTML overview = (reversed overview, out, Ok ())
    /\ shown_pages out
       = List.filter (fun k => minresults <=? value (ov_hits overview) k)
           (sortByValue (ov_hits overview))
    /\ shown_urls out
       = map escaped (take recentreferrers (rev (ov_referrers overview))).*1
    /\ shown_searches out
       = take recentsearches (sortByValue (ov_queries overview)).
Proof.
  unfold displayOverviewHTML.
  destruct (show_pages_Ok (ov_cgiloc overview) (ov_hits overview)
              (sortByValue (ov_hits overview)) (sortByValue_keys _))
    as (pages & -> & Hp1 & Hu1 & Hs1).
  fold (reversed overview).
  destruct (show_referrers_Ok
              (Py.slice (rev (ov_referrers overview)) 0 recentreferrers))
    as (refs & -> & Hu2 & Hp2 & Hs2).
  cbn [ov_queries reversed].
  destruct (show_searches_Ok (ov_queries overview)
              (Py.slice (sortByValue (ov_queries overview)) 0 recentsearches))
    as (searches & -> & Hs3 & Hp3 & Hu3).
  { apply Forall_take, sortByValue_keys. }
  eexists. split; [reflexivity|].
  rewrite !shown_pages_app, !shown_urls_app, !shown_searches_app.
  rewrite Hp1, Hu1, Hs1, Hu2, Hp2, Hs2, Hs3, Hp3, Hu3.
  cbn [shown_pages shown_urls shown_searches omap list_omap app].
  rewrite !app_nil_r. done.
Qed.

Lemma StronglySorted_filter {A} (R : relation A) (f : A -> bool) (l : list A) :
  StronglySorted R l -> StronglySorted R (List.filter f l).
Proof.
  induction 1 as [|x l Hl IH Hx]; cbn [List.filter]; [constructor|].
  destruct (f x); [|exact IH]. constructor; [exact IH|].
  rewrite Forall_forall in Hx. apply Forall_forall.
  intros y [Hy _]%list_elem_of_In%filter_In. by apply Hx, list_elem_of_In.
Qed.

Lemma elem_of_filter_bool {A} (f : A -> bool) (l : list A) (x : A) :
  x ∈ List.filter f l <-> x ∈ l /\ f x = true.
Proof. by rewrite !list_elem_of_In, filter_In. Qed.

Lemma NoDup_filter_bool {A} (f : A -> bool) (l : list A) :
  NoDup l -> NoDup (List.filter f l).
Proof.
  induction 1 as [|x l Hx Hl IH]; cbn [List.filter]; [constructor|].
  destruct (f x); [|exact IH]. constructor; [|exact IH].
  rewrite elem_of_filter_bool. by intros [? _].
Qed.

Lemma value_pos_is_Some d k : 0 < value d k -> is_Some (d !! k).
Proof. unfold value. destruct (d !! k); [eauto | simpl; lia]. Qed.

(** X10. [displayOverviewHTML] returns for every overview: none of the
    lookups [hits[res]] and [queries[query]] and no call of [justdomain]
    raises. *)
Theorem displayOverviewHTML_returns (overview : Overview) :
  (displayOverviewHTML overview).2 = Ok ().
Proof.
  by destruct (displayOverviewHTML_Ok overview) as (out & -> & _).
Qed.

(** X11. The popular pages of the overview page are the resources with
    at least [minresults] hits, each shown once, in the order of
    decreasing hits. *)
Theorem popular_pages_shown (overview : Overview) :
  let pages := shown_pages (displayOverviewHTML overview).1.2 in
  (forall res, res ∈ pages <-> minresults <= value (ov_hits overview) res)
  /\ NoDup pages
  /\ StronglySorted (ranked_before (ov_hits overview)) pages.
Proof.
  destruct (displayOverviewHTML_Ok overview) as (out & -> & Hp & _).
  cbn [fst snd]. rewrite Hp. split; [|split].
  - intros res. rewrite elem_of_filter_bool, sortByValue_elem_of, Nat.leb_le.
    split; [by intros [_ H]|]. intros H. split; [|done].
    apply value_pos_is_Some. unfold minresults in H. lia.
  - apply NoDup_filter_bool, sortByValue_NoDup.
  - apply StronglySorted_filter, sortByValue_sorted.
Qed.

Lemma escaped_urls (referrers : list (str * option str)) :
  map escaped referrers.*1 = map (fun rq => escaped rq.1) referrers.
Proof. induction referrers as [|rq rest IH]; [done|]. cbn. by rewrite <- IH. Qed.

(** X12. The overview page shows the last [recentreferrers] entries of
    the referrer list (all of them when there are fewer), the most
    recent one first. *)
Theorem recent_referrers_shown (overview : Overview) :
  shown_urls (displayOverviewHTML overview).1.2
  = map (fun rq => escaped rq.1)
        (rev (lastn recentreferrers (ov_referrers overview))).
Proof.
  destruct (displayOverviewHTML_Ok overview) as (out & -> & _ & Hu & _).
  cbn [fst snd]. rewrite Hu, escaped_urls. f_equal. unfold lastn. apply firstn_rev.
Qed.

(** X13. The overview page shows at most [recentsearches] search terms,
    in the order of decreasing counts, and no term that it leaves out
    ranks before one that it shows. *)
Theorem top_searches_shown (overview : Overview) :
  let searches := shown_searches (displayOverviewHTML overview).1.2 in
  length searches <= recentsearches
  /\ StronglySorted (ranked_before (ov_queries overview)) searches
  /\ (forall q q', q ∈ searches -> is_Some (ov_queries overview !! q') ->
        q' ∉ searches -> ranked_before (ov_queries overview) q q').
Proof.
  destruct (displayOverviewHTML_Ok overview) as (out & -> & _ & _ & Hs).
  cbn [fst snd]. rewrite Hs.
  pose proof (sortByValue_sorted (ov_queries overview)) as Hsorted.
  rewrite <- (take_drop recentsearches (sortByValue (ov_queries overview))) in Hsorted.
  split; [rewrite length_take; lia|]. split.
  - by apply StronglySorted_app_1_l in Hsorted.
  - intros q q' Hq Hq' Hout.
    apply (StronglySorted_app_1_elem_of _ _ _ _ _ Hsorted Hq).
    apply sortByValue_elem_of in Hq'.
    rewrite <- (take_drop recentsearches (sortByValue _)) in Hq'.
    by apply elem_of_app in Hq' as [|].
Qed.

(** X14. [displayOverviewHTML] reverses the referrer list that the
    overview holds and changes nothing else of it, so that a second call
    on the same overview shows the oldest referrers and gives the
    overview back as it was. *)
Theorem displayOverviewHTML_reverses (overview : Overview) :
  (displayOverviewHTML overview).1.1 = reversed overview
  /\ (displayOverviewHTML (displayOverviewHTML overview).1.1).1.1 = overview.
Proof.
  destruct (displayOverviewHTML_Ok overview) as (out & -> & _).
  cbn [fst].
  destruct (displayOverviewHTML_Ok (reversed overview)) as (out' & -> & _).
  cbn [fst]. split; [reflexivity|].
  destruct overview. unfold reversed. cbn. by rewrite rev_involutive.
Qed.

(** ** The per-resource view *)

Lemma url_rows_app o1 o2 : url_rows (o1 ++ o2) = url_rows o1 ++ url_rows o2.
Proof. apply omap_app. Qed.

Lemma getDNS_Ok db ip : exists addr, getDNS db ip = Ok addr.
Proof. rewrite getDNS_value. eauto. Qed.

(** What one line prints in [urldetails]. *)
Lemma url_line_Ok env db url cgiloc counter line :
  match url_line env db url cgiloc counter line with
  | Raise e => length (Py.split " "%string line) < 7 /\ e = IndexError
  | Ok (out, counter') =>
      7 <= length (Py.split " "%string line)
      /\ if bool_decide (resource_of line = Ok url) && negb (ignorelines line)
         then exists ip addr,
                address_of line = Ok ip /\ getDNS db ip = Ok addr
                /\ url_rows out = [(counter, ip, addr)] /\ counter' = counter + 1
         else out = [] /\ counter' = counter
  end.
Proof.
  unfold url_line, resource_of, address_of.
  pose proof (index_Ok_length (Py.split " "%string line) 6) as H6.
  pose proof (index_Ok_length (Py.split " "%string line) 3) as H3.
  pose proof (index_Ok_length (Py.split " "%string line) 0) as H0.
  destruct (Py.index (Py.split " "%string line) 6) as [resource|e] eqn:E6;
    cbn [mbind result_bind is_ok] in *.
  2: { apply index_raises in E6. split; [|done].
       destruct (decide (6 < length (Py.split " "%string line))) as [H|H]; [|lia].
       apply H6 in H. discriminate. }
  assert (6 < length (Py.split " "%string line)) as L by (by apply H6).
  destruct (Py.index (Py.split " "%string line) 3) as [stamp|];
    [|assert (false = true) by (apply H3; lia); discriminate].
  destruct (Py.index (Py.split " "%string line) 0) as [ip|];
    [|assert (false = true) by (apply H0; lia); discriminate].
  rewrite (bool_decide_ext (Ok resource = Ok url) (resource = url))
    by (split; congruence).
  destruct (bool_decide (resource = url) && negb (ignorelines line));
    cbn [mbind result_bind].
  - destruct (getDNS_Ok db ip) as [addr Ha]. rewrite Ha. cbn [mbind result_bind].
    split; [lia|]. exists ip, addr. auto.
  - split; [lia | auto].
Qed.

(** The loop of [urldetails]. *)
Lemma url_lines_Ok env db url cgiloc loglines : forall counter outs r,
  url_lines env db url cgiloc counter loglines = (outs, r) ->
  match r with
  | Raise e =>
      Exists (fun line => length (Py.split " "%string line) < 7) loglines
      /\ e = IndexError
  | Ok _ =>
      Forall (fun line => 7 <= length (Py.split " "%string line)) loglines
      /\ (url_rows outs).*1.*1 = seq counter (length (hits_for url loglines))
      /\ Forall2 (fun row line =>
                    address_of line = Ok row.1.2 /\ getDNS db row.1.2 = Ok row.2)
           (url_rows outs) (hits_for url loglines)
  end.
Proof.
  induction loglines as [|line rest IH]; intros counter outs r;
    cbn [url_lines hits_for List.filter].
  - intros [= <- <-]. repeat split; constructor.
  - pose proof (url_line_Ok env db url cgiloc counter line) as Hline.
    destruct (url_line env db url cgiloc counter line) as [[out counter']|e].
    + destruct (url_lines env db url cgiloc counter' rest) as [outs' r'] eqn:Er.
      intros [= <- <-]. apply IH in Er. fold (hits_for url rest).
      destruct Hline as [H7 Hline].
      destruct r' as [[]|e].
      * destruct Er as (Hall & Hnum & Hrows). split; [by constructor|].
        rewrite url_rows_app.
        destruct (bool_decide _ && negb _).
        -- destruct Hline as (ip & addr & Hip & Haddr & -> & ->).
           cbn [app fmap list_fmap length seq fst snd]. split.
           ++ f_equal. by rewrite Hnum, Nat.add_1_r.
           ++ by constructor.
        -- destruct Hline as [-> ->]. by split.
      * destruct Er as [Hex ->]. split; [by apply Exists_cons_tl | done].
    + intros [= <- <-]. destruct Hline as [H7 ->].
      split; [by apply Exists_cons_hd | done].
Qed.

(** X15. [urldetails] returns exactly when every line of the window has
    at least 7 tokens (also the lines of other resources and the ignored
    ones); otherwise an [IndexError] leaves it.  When it returns, it has
    printed one row for each line of the resource that [ignorelines] does
    not match, in their order and numbered 1, 2, 3, ..., with the address
    of the line and what [getDNS] returns for it. *)
Theorem urldetails_rows (env : Env) (db : Dbm) (url cgiloc : str)
    (loglines : list str) :
  let '(out, r) := urldetails env db url cgiloc loglines in
  match r with
  | Raise e =>
      Exists (fun line => length (Py.split " "%string line) < 7) loglines
      /\ e = IndexError
  | Ok _ =>
      Forall (fun line => 7 <= length (Py.split " "%string line)) loglines
      /\ (url_rows out).*1.*1 = seq 1 (length (hits_for url loglines))
      /\ Forall2 (fun row line =>
                    address_of line = Ok row.1.2 /\ getDNS db row.1.2 = Ok row.2)
           (url_rows out) (hits_for url loglines)
  end.
Proof.
  unfold urldetails.
  destruct (url_lines env db url cgiloc 1 loglines) as [outs r] eqn:E.
  apply url_lines_Ok in E. destruct r as [[]|e]; [|exact E].
  change (UrlTitle url :: outs ++ [UrlEnd]) with ([UrlTitle url] ++ outs ++ [UrlEnd]).
  rewrite !url_rows_app. cbn [url_rows omap list_omap app]. by rewrite app_nil_r.
Qed.

(** ** Lines of other addresses, and the cache *)

Lemma address_of_Ok line : exists address, address_of line = Ok address.
Proof.
  unfold address_of.
  pose proof (index_Ok_length (Py.split " "%string line) 0) as H.
  pose proof (split_length " "%string line).
  destruct (Py.index _ 0); [eauto|].
  assert (false = true) by (apply H; lia). discriminate.
Qed.

Lemma detail_line_other env ip counter pagecounter line :
  address_of line <> Ok ip ->
  detail_line env ip counter pagecounter line = Ok ([], counter, pagecounter).
Proof.
  intros Hne. unfold detail_line. destruct (address_of_Ok line) as [a Ha].
  unfold address_of in *. rewrite Ha in *. cbn [mbind result_bind].
  rewrite bool_decide_eq_false_2 by congruence. reflexivity.
Qed.

Lemma detail_lines_hits_from env ip loglines : forall counter pagecounter,
  detail_lines env ip counter pagecounter loglines
  = detail_lines env ip counter pagecounter (hits_from ip loglines).
Proof.
  induction loglines as [|line rest IH]; intros counter pagecounter; [done|].
  cbn [hits_from List.filter]. fold (hits_from ip rest).
  destruct (decide (address_of line = Ok ip)) as [Heq|Hne].
  - rewrite bool_decide_eq_true_2 by done. cbn [detail_lines].
    destruct (detail_line env ip counter pagecounter line) as [[[o c] pc]|]; [|done].
    by rewrite IH.
  - rewrite bool_decide_eq_false_2 by done. cbn [detail_lines].
    rewrite detail_line_other by done. rewrite IH.
    by destruct (detail_lines env ip counter pagecounter (hits_from ip rest)).
Qed.

(** X16. [ipdetails] looks at nothing but the first token of the lines
    of other addresses: its output, its result and what it does to the
    cache are the same as on the lines of the address alone, so that a
    malformed line of another address does not stop it. *)
Theorem ipdetails_other_addresses (env : Env) (gethostbyaddr : str -> option str)
    (db : Dbm) (ip : str) (loglines : list str) :
  ipdetails env gethostbyaddr db ip loglines
  = ipdetails env gethostbyaddr db ip (hits_from ip loglines).
Proof. unfold ipdetails. by rewrite detail_lines_hits_from. Qed.

Lemma ipdetails_cache env gethostbyaddr db ip loglines :
  (ipdetails env gethostbyaddr db ip loglines).1.1
  = (cache_addr db ip (lookup_addr gethostbyaddr ip)).1.
Proof.
  unfold ipdetails.
  pose proof (cache_addr_returns db ip (lookup_addr gethostbyaddr ip)) as H.
  destruct (cache_addr db ip _) as [db' r]. cbn [snd] in H. subst r.
  destruct (detail_lines env ip 1 1 loglines) as [outs [[]|e]]; reflexivity.
Qed.

(** X17. When the reverse lookup of [ipdetails] succeeds and the cache
    works, the name is stored: afterwards [getDNS] returns it for this
    address, and for every other address what it returned before. *)
Theorem ipdetails_stores_name (env : Env) (gethostbyaddr : str -> option str)
    (db : Dbm) (ip addr : str) (loglines : list str) :
  gethostbyaddr ip = Some addr ->
  addr <> ("unknown host"%string : str) ->
  dbm_opens db && dbm_reads db && dbm_writes db && dbm_closes db = true ->
  let db' := (ipdetails env gethostbyaddr db ip loglines).1.1 in
  getDNS db' ip = Ok addr
  /\ forall other, other <> ip -> getDNS db' other = getDNS db other.
Proof.
  intros Hlookup Hne Hok db'. subst db'. rewrite ipdetails_cache.
  unfold lookup_addr. rewrite Hlookup.
  split; [by apply getDNS_after_cache|].
  intros other Hother. rewrite !getDNS_value.
  apply andb_true_iff in Hok as [Hok Hc].
  apply andb_true_iff in Hok as [Hok Hw]. apply andb_true_iff in Hok as [Ho Hr].
  unfold cache_addr, dbm_open, dbm_setitem.
  rewrite bool_decide_eq_true_2 by done. rewrite Ho, Hw.
  cbn [fst dbm_opens dbm_reads dbm_closes dbm_data].
  by rewrite lookup_insert_ne.
Qed.

Lemma ipdetails_stores_name_witness :
  let db' := (ipdetails (Sample.env_at Sample.noon 7200)
                (fun _ => Some ("host.example.org"%string : str)) Sample.cache
                "203.0.113.5"%string Sample.window).1.1 in
  getDNS db' "203.0.113.5"%string = Ok ("host.example.org"%string : str)
  /\ forall other, other <> ("203.0.113.5"%string : str) ->
       getDNS db' other = getDNS Sample.cache other.
Proof.
  apply (ipdetails_stores_name (Sample.env_at Sample.noon 7200)
           (fun _ => Some ("host.example.org"%string : str)) Sample.cache
           "203.0.113.5"%string "host.example.org"%string Sample.window).
  - reflexivity.
  - discriminate.
  - reflexivity.
Defined.

(** X18. [ipdetails] changes the cache at most in the entry of its
    address, and a reverse lookup that fails leaves the cache as it
    was. *)
Theorem ipdetails_cache_frame (env : Env) (gethostbyaddr : str -> option str)
    (db : Dbm) (ip : str) (loglines : list str) :
  let db' := (ipdetails env gethostbyaddr db ip loglines).1.1 in
  (forall other, other <> ip -> dbm_data db' !! other = dbm_data db !! other)
  /\ (gethostbyaddr ip = None -> db' = db).
Proof.
  intros db'. subst db'. rewrite ipdetails_cache. unfold cache_addr, lookup_addr.
  split.
  - intros other Hother. destruct (bool_decide _); [|done].
    unfold dbm_open, dbm_setitem.
    destruct (dbm_opens db); [|done]. destruct (dbm_writes db); [|done].
    cbn [fst dbm_data]. by rewrite lookup_insert_ne.
  - intros ->. reflexivity.
Qed.

Lemma ipdetails_cache_frame_witness :
  (ipdetails (Sample.env_at Sample.noon 7200) (fun _ => None) Sample.cache
     "203.0.113.5"%string Sample.window).1.1
  = Sample.cache.
Proof.
  apply (ipdetails_cache_frame (Sample.env_at Sample.noon 7200) (fun _ => None)
           Sample.cache "203.0.113.5"%string Sample.window).
  reflexivity.
Defined.

(** ** The domain of a URL *)

Lemma upto_not_elem c s : c ∉ upto c s.
Proof.
  induction s as [|a s IH]; cbn [upto]; [apply not_elem_of_nil|].
  unfold Py.eqb_ascii. destruct (decide (a = c)) as [->|Hne].
  - rewrite bool_decide_eq_true_2 by done. apply not_elem_of_nil.
  - rewrite bool_decide_eq_false_2 by done. rewrite not_elem_of_cons.
    split; [congruence | exact IH].
Qed.

(** X19. What [justdomain] returns never contains a slash, and it is a
    part of the URL unless it is 'bad referrer'. *)
Theorem justdomain_without_slash (url domain : str) :
  justdomain url = Ok domain ->
  ("/"%char ∉ domain)
  /\ (domain = ("bad referrer"%string : str) \/ infix domain url).
Proof.
  intros H. split; [|by apply justdomain_infix].
  rewrite justdomain_value in H.
  destruct (Py.find "//"%string url) as [i|]; injection H as <-.
  - apply upto_not_elem.
  - apply (bool_decide_eq_true_1 _). reflexivity.
Qed.

Lemma justdomain_without_slash_witness :
  ("/"%char ∉ ("www.djangobook.com"%string : str))
  /\ (("www.djangobook.com"%string : str) = ("bad referrer"%string : str)
      \/ infix "www.djangobook.com"%string rooturl).
Proof.
  apply (justdomain_without_slash rooturl). reflexivity.
Defined.
